(** * GreenProof: canonical encoding, proof derivation and attestation

    A shallow embedding of [src/main.py] (the [action_proof_hash] utility and
    the [attest_action] handler) and of the [ImpactAction] / [Proof] schemas
    of [src/schemas.py], with the library routines they call
    ([hashlib.sha256], [json.dumps], [str.encode], pydantic validation and
    the two MongoDB collections) modelled next to them. *)

From Stdlib Require Import NArith ZArith List String Ascii Lia Permutation Sorted DecimalString DecimalN.
From stdpp Require Import gmap strings list fin_maps.
Import ListNotations.

Local Open Scope N_scope.

(** ** Python strings and bytes

    A Python [str] is a sequence of Unicode code points (numbers below
    0x110000, surrogates included); [bytes] is a sequence of octets.  Both
    are lists of [N]. *)

Definition pystr := list N.
Definition pybytes := list N.

(** The code points of an ASCII literal of the source. *)
Definition py (x : string) : pystr :=
  map N_of_ascii (list_ascii_of_string x).

(** ** hashlib.sha256

    FIPS 180-4, on 32-bit words held in [N] with the wrap-around written
    out. *)
Module SHA256.

Definition w32 (x : N) : N := x mod 2 ^ 32.
Definition add32 (x y : N) : N := w32 (x + y).
Definition rotr (n x : N) : N :=
  w32 (N.lor (N.shiftr x n) (N.shiftl x (32 - n))).
Definition not32 (x : N) : N := N.lxor x 0xffffffff.

Definition Ch (x y z : N) : N := N.lxor (N.land x y) (N.land (not32 x) z).
Definition Maj (x y z : N) : N :=
  N.lxor (N.lxor (N.land x y) (N.land x z)) (N.land y z).
Definition Sigma0 (x : N) : N := N.lxor (N.lxor (rotr 2 x) (rotr 13 x)) (rotr 22 x).
Definition Sigma1 (x : N) : N := N.lxor (N.lxor (rotr 6 x) (rotr 11 x)) (rotr 25 x).
Definition sigma0 (x : N) : N := N.lxor (N.lxor (rotr 7 x) (rotr 18 x)) (N.shiftr x 3).
Definition sigma1 (x : N) : N := N.lxor (N.lxor (rotr 17 x) (rotr 19 x)) (N.shiftr x 10).

(** The round constants and the initial chaining value are not tabulated
    but computed as FIPS 180-4 defines them: the first 32 bits of the
    fractional parts of the cube roots of the first 64 primes, and of the
    square roots of the first 8. *)
Definition is_prime (n : N) : bool :=
  forallb (fun d => negb (n mod N.of_nat d =? 0)) (seq 2 (N.to_nat n - 2)).

Definition primes : list N :=
  firstn 64 (List.filter is_prime (map N.of_nat (seq 2 400))).

(** The largest [r] between [lo] and [hi] with [r ^ k <= x], by bisection. *)
Fixpoint root_search (fuel : nat) (k x lo hi : N) : N :=
  match fuel with
  | O => lo
  | S fuel' =>
      let mid := (lo + hi + 1) / 2 in
      if mid ^ k <=? x then root_search fuel' k x mid hi
      else root_search fuel' k x lo (mid - 1)
  end.

Definition root_fraction (k p : N) : N :=
  root_search 48 k (p * 2 ^ (32 * k)) 0 (2 ^ 40) mod 2 ^ 32.

Definition K : list N := Eval vm_compute in map (root_fraction 3) primes.

(** The eight working registers / chaining values. *)
Record regs := Regs { ra : N; rb : N; rc : N; rd : N; re : N; rf : N; rg : N; rh : N }.

Definition regs_of (ws : list N) : regs :=
  match ws with
  | [a; b; c; d; e; f; g; h] => Regs a b c d e f g h
  | _ => Regs 0 0 0 0 0 0 0 0
  end.

Definition H0 : regs :=
  Eval vm_compute in regs_of (map (root_fraction 2) (firstn 8 primes)).

(** Padding: a 1 bit, zeros up to 56 mod 64, the bit length on 8 bytes. *)
Definition be_bytes (n : nat) (x : N) : pybytes :=
  map (fun i => N.shiftr x (8 * N.of_nat i) mod 256) (rev (seq 0 n)).

Definition pad (msg : pybytes) : pybytes :=
  let len := N.of_nat (length msg) in
  let zeros := N.to_nat ((55 + 64 - len mod 64) mod 64) in
  msg ++ [0x80] ++ repeat 0 zeros ++ be_bytes 8 (8 * len).

Fixpoint be_words (n : nat) (bs : pybytes) : list N :=
  match n, bs with
  | S n', b0 :: b1 :: b2 :: b3 :: rest =>
      (b0 * 2 ^ 24 + b1 * 2 ^ 16 + b2 * 2 ^ 8 + b3) :: be_words n' rest
  | _, _ => []
  end.

(** Message schedule: sixteen block words extended to sixty-four. *)
Fixpoint extend (n : nat) (w : list N) : list N :=
  match n with
  | O => w
  | S n' =>
      let t := length w in
      let at_ k := nth (t - k)%nat w 0 in
      extend n' (w ++ [add32 (add32 (add32 (sigma1 (at_ 2%nat)) (at_ 7%nat))
                                    (sigma0 (at_ 15%nat))) (at_ 16%nat)])
  end.

Definition round (s : regs) (kw : N * N) : regs :=
  let '(k, w) := kw in
  let t1 := add32 (add32 (add32 (add32 (rh s) (Sigma1 (re s))) (Ch (re s) (rf s) (rg s))) k) w in
  let t2 := add32 (Sigma0 (ra s)) (Maj (ra s) (rb s) (rc s)) in
  Regs (add32 t1 t2) (ra s) (rb s) (rc s) (add32 (rd s) t1) (re s) (rf s) (rg s).

Definition compress (h : regs) (block : pybytes) : regs :=
  let w := extend 48 (be_words 16 block) in
  let s := fold_left round (combine K w) h in
  Regs (add32 (ra h) (ra s)) (add32 (rb h) (rb s)) (add32 (rc h) (rc s))
       (add32 (rd h) (rd s)) (add32 (re h) (re s)) (add32 (rf h) (rf s))
       (add32 (rg h) (rg s)) (add32 (rh h) (rh s)).

Fixpoint blocks (fuel : nat) (bs : pybytes) : list pybytes :=
  match fuel, bs with
  | S fuel', _ :: _ => firstn 64 bs :: blocks fuel' (skipn 64 bs)
  | _, _ => []
  end.

Definition digest_of (h : regs) : pybytes :=
  be_bytes 4 (ra h) ++ be_bytes 4 (rb h) ++ be_bytes 4 (rc h) ++ be_bytes 4 (rd h) ++
  be_bytes 4 (re h) ++ be_bytes 4 (rf h) ++ be_bytes 4 (rg h) ++ be_bytes 4 (rh h).

(** [hashlib.sha256(msg).digest()] *)
Definition sha256 (msg : pybytes) : pybytes :=
  let p := pad msg in
  digest_of (fold_left compress (blocks (length p) p) H0).

End SHA256.

(** [bytes.hex()] / [.hexdigest()]: two lowercase hexadecimal digits per
    byte. *)
Definition hexdigit (d : N) : N := if d <? 10 then 48 + d else 87 + d.
Definition hex_of_bytes (bs : pybytes) : pystr :=
  flat_map (fun b => [hexdigit (b / 16); hexdigit (b mod 16)]) bs.

Definition hexdigest (msg : pybytes) : pystr := hex_of_bytes (SHA256.sha256 msg).


(** ** Exceptions

    Fallible code returns [Ok] or raises; [HTTPException] carries the status
    code and detail that FastAPI sends back. *)
Inductive exn : Type :=
  | HTTPException (status_code : N) (detail : string)
  | ValidationError
  | KeyError
  | TypeError
  | ValueError
  | OverflowError
  | UnicodeEncodeError.

Inductive result (A : Type) : Type :=
  | Ok (a : A)
  | Raise (e : exn).
Arguments Ok {A} a.
Arguments Raise {A} e.

#[global] Instance result_ret : MRet result := fun A a => Ok a.
#[global] Instance result_bind : MBind result := fun A B f m =>
  match m with
  | Ok a => f a
  | Raise e => Raise e
  end.

(** ** str.encode("utf-8")

    Surrogates cannot be encoded; a number past U+10FFFF is no code point
    and is refused as well. *)
Definition is_scalar (c : N) : bool :=
  (c <? 0xD800) || ((0xDFFF <? c) && (c <? 0x110000)).

Definition str_ok (s : pystr) : bool := forallb is_scalar s.

Definition utf8_char (c : N) : pybytes :=
  if c <? 0x80 then [c]
  else if c <? 0x800 then [0xC0 + c / 64; 0x80 + c mod 64]
  else if c <? 0x10000 then
    [0xE0 + c / 4096; 0x80 + (c / 64) mod 64; 0x80 + c mod 64]
  else
    [0xF0 + c / 262144; 0x80 + (c / 4096) mod 64; 0x80 + (c / 64) mod 64; 0x80 + c mod 64].

Fixpoint encode_utf8 (s : pystr) : result pybytes :=
  match s with
  | [] => Ok []
  | c :: rest =>
      if is_scalar c
      then bs ← encode_utf8 rest; Ok (utf8_char c ++ bs)
      else Raise UnicodeEncodeError
  end.

(** ** json.dumps

    [py_encode_basestring_ascii] ([ensure_ascii] is left at its default):
    printable ASCII is copied, the quote, the backslash and five control
    characters have two-character escapes, everything else becomes
    [\uXXXX], as a surrogate pair above the basic plane. *)
Definition hex4 (n : N) : pystr :=
  [hexdigit (n / 4096 mod 16); hexdigit (n / 256 mod 16);
   hexdigit (n / 16 mod 16); hexdigit (n mod 16)].

Definition backslash : N := 92.
Definition dquote : N := 34.

Definition escape_char (c : N) : pystr :=
  if c =? dquote then [backslash; dquote]
  else if c =? backslash then [backslash; backslash]
  else if c =? 10 then [backslash; 110]
  else if c =? 13 then [backslash; 114]
  else if c =? 9 then [backslash; 116]
  else if c =? 8 then [backslash; 98]
  else if c =? 12 then [backslash; 102]
  else if (32 <=? c) && (c <=? 126) then [c]
  else if c <? 0x10000 then backslash :: 117 :: hex4 c
  else
    let n := c - 0x10000 in
    let s1 := N.lor 0xd800 (N.land (N.shiftr n 10) 0x3ff) in
    let s2 := N.lor 0xdc00 (N.land n 0x3ff) in
    (backslash :: 117 :: hex4 s1) ++ (backslash :: 117 :: hex4 s2).

Definition encode_basestring_ascii (s : pystr) : pystr :=
  dquote :: flat_map escape_char s ++ [dquote].

(** [int.__repr__] *)
Definition int_repr (z : Z) : pystr := py (NilZero.string_of_int (Z.to_int z)).

(** [str] comparison: lexicographic on code points. *)
Fixpoint str_leb (a b : pystr) : bool :=
  match a, b with
  | [], _ => true
  | _ :: _, [] => false
  | x :: a', y :: b' =>
      if x <? y then true else if x =? y then str_leb a' b' else false
  end.

(** [separator.join(parts)] *)
Fixpoint join (sep : pystr) (parts : list pystr) : pystr :=
  match parts with
  | [] => []
  | [p] => p
  | p :: rest => p ++ sep ++ join sep rest
  end.

(** ** Floats

    [float] values are kept abstract: the development only needs the
    operations of the interpreter that the handlers reach. *)
Class PyFloat : Type := {
  pyfloat : Type;
  (** [json.encoder]'s [floatstr]: [float.__repr__], or [NaN], [Infinity],
      [-Infinity] *)
  floatstr : pyfloat -> string;
  (** [x > 0] *)
  float_gt0 : pyfloat -> bool;
  (** [x != 0.0], the truth value of a float *)
  float_nonzero : pyfloat -> bool;
  (** [float(n)] for an [int] *)
  float_of_Z : Z -> result pyfloat;
  (** [float(s)] for a [str] *)
  float_of_str : pystr -> result pyfloat;
}.

(** ** A small float model

    Decimal numbers with one fractional digit ([z] stands for [z / 10]).
    It is a stand-in for the examples only, and agrees with Python's
    [float] on what they use: the text of one-decimal values below 1e16
    (as [float.__repr__] prints them), the comparison with 0, and the
    conversion of small integers and of texts of the form [digits] or
    [digits.digit].  It has no rounding, no overflow and no exponent
    notation.  The theorems do not depend on it: they hold for every
    [PyFloat]. *)
Definition tenths_str (z : Z) : string :=
  string_of_list_ascii
    ((if (z <? 0)%Z then ["-"%char] else []) ++
     list_ascii_of_string (NilEmpty.string_of_uint (N.to_uint (Z.abs_N z / 10))) ++
     ["."%char; ascii_of_N (48 + Z.abs_N z mod 10)]).

Definition digit_val (c : N) : option N :=
  if (48 <=? c) && (c <=? 57) then Some (c - 48) else None.

Fixpoint parse_digits (acc : N) (s : pystr) : option (N * pystr) :=
  match s with
  | c :: rest =>
      match digit_val c with
      | Some d => parse_digits (10 * acc + d) rest
      | None => Some (acc, s)
      end
  | [] => Some (acc, [])
  end.

(** Accepts [digits], [digits.digit] and a leading minus sign. *)
Definition tenths_of_str (s : pystr) : result Z :=
  let '(neg, body) := match s with 45 :: r => (true, r) | _ => (false, s) end in
  match body with
  | [] => Raise ValueError
  | c :: _ =>
      match digit_val c, parse_digits 0 body with
      | Some _, Some (i, []) =>
          Ok (if neg : bool then - Z.of_N (10 * i) else Z.of_N (10 * i))%Z
      | Some _, Some (i, [46; f]) =>
          match digit_val f with
          | Some d => Ok (if neg : bool then - Z.of_N (10 * i + d) else Z.of_N (10 * i + d))%Z
          | None => Raise ValueError
          end
      | _, _ => Raise ValueError
      end
  end.

Definition tenths_float : PyFloat := {|
  pyfloat := Z;
  floatstr := tenths_str;
  float_gt0 := fun z => (0 <? z)%Z;
  float_nonzero := fun z => negb (z =? 0)%Z;
  float_of_Z := fun n => Ok (10 * n)%Z;
  float_of_str := tenths_of_str;
|}.

(** The bson [ObjectId]: twelve bytes, written as 24 hexadecimal digits. *)
Abbreviation oid := (list N).

Definition unhex (c : N) : option N :=
  if (48 <=? c) && (c <=? 57) then Some (c - 48)
  else if (97 <=? c) && (c <=? 102) then Some (c - 87)
  else if (65 <=? c) && (c <=? 70) then Some (c - 55)
  else None.

Definition is_ascii_space (c : N) : bool := (c =? 32) || ((9 <=? c) && (c <=? 13)).

(** [bytes.fromhex]: pairs of hexadecimal digits, ASCII whitespace between
    pairs skipped; [None] stands for [ValueError]. *)
Fixpoint fromhex (s : pystr) : option pybytes :=
  match s with
  | [] => Some []
  | h :: rest =>
      if is_ascii_space h then fromhex rest
      else
        match rest with
        | [] => None
        | l :: rest' =>
            match unhex h, unhex l, fromhex rest' with
            | Some a, Some b, Some bs => Some (16 * a + b :: bs)
            | _, _, _ => None
            end
        end
  end.

(** [ObjectId(s)] for a [str]; [None] stands for [InvalidId]. *)
Definition ObjectId (s : pystr) : option oid :=
  if (length s =? 24)%nat then fromhex s else None.

(** ** Left inverses of the two character encoders

    They are not part of the program; they serve to show that escaping and
    UTF-8 lose nothing.  [unescape_char] reads one character of a JSON
    string body, [utf8_decode_char] one UTF-8 sequence; both return the rest
    of the input. *)
Definition unhex4 (s : pystr) : option (N * pystr) :=
  match s with
  | a :: b :: c :: d :: rest =>
      match unhex a, unhex b, unhex c, unhex d with
      | Some x, Some y, Some z, Some w => Some (4096 * x + 256 * y + 16 * z + w, rest)
      | _, _, _, _ => None
      end
  | _ => None
  end.

Definition unescape_u (rest : pystr) : option (N * pystr) :=
  match unhex4 rest with
  | Some (hi, rest') =>
      if (0xd800 <=? hi) && (hi <=? 0xdbff) then
        match rest' with
        | b :: u :: rest'' =>
            match unhex4 rest'' with
            | Some (lo, r) =>
                if (b =? backslash) && (u =? 117) && (0xdc00 <=? lo) && (lo <=? 0xdfff)
                then Some (0x10000 + (hi - 0xd800) * 1024 + (lo - 0xdc00), r)
                else Some (hi, rest')
            | None => Some (hi, rest')
            end
        | _ => Some (hi, rest')
        end
      else Some (hi, rest')
  | None => None
  end.

Definition unescape_char (s : pystr) : option (N * pystr) :=
  match s with
  | [] => None
  | c :: rest =>
      if c =? backslash then
        match rest with
        | [] => None
        | e :: rest' =>
            if e =? 117 then unescape_u rest'
            else if e =? dquote then Some (dquote, rest')
            else if e =? backslash then Some (backslash, rest')
            else if e =? 110 then Some (10, rest')
            else if e =? 114 then Some (13, rest')
            else if e =? 116 then Some (9, rest')
            else if e =? 98 then Some (8, rest')
            else if e =? 102 then Some (12, rest')
            else None
        end
      else Some (c, rest)
  end.

Definition utf8_decode_char (bs : pybytes) : option (N * pybytes) :=
  match bs with
  | [] => None
  | b0 :: r0 =>
      if b0 <? 0x80 then Some (b0, r0)
      else if b0 <? 0xE0 then
        match r0 with
        | b1 :: r1 => Some ((b0 - 0xC0) * 64 + (b1 - 0x80), r1)
        | _ => None
        end
      else if b0 <? 0xF0 then
        match r0 with
        | b1 :: b2 :: r2 => Some ((b0 - 0xE0) * 4096 + (b1 - 0x80) * 64 + (b2 - 0x80), r2)
        | _ => None
        end
      else
        match r0 with
        | b1 :: b2 :: b3 :: r3 =>
            Some ((b0 - 0xF0) * 262144 + (b1 - 0x80) * 4096 + (b2 - 0x80) * 64 + (b3 - 0x80), r3)
        | _ => None
        end
  end.

Section GreenProof.

Context {F : PyFloat}.

(** ** Values held by documents and model dumps *)
Inductive value : Type :=
  | VNone
  | VBool (b : bool)
  | VInt (z : Z)
  | VFloat (x : pyfloat)
  | VStr (s : pystr)
  | VDatetime (t : N)
  | VObjectId (o : oid).

(** A Python [dict] with [str] keys, in insertion order. *)
Definition pydict := list (string * value).

Definition dumps_value (v : value) : result pystr :=
  match v with
  | VNone => Ok (py "null")
  | VBool true => Ok (py "true")
  | VBool false => Ok (py "false")
  | VInt z => Ok (int_repr z)
  | VFloat x => Ok (py (floatstr x))
  | VStr s => Ok (encode_basestring_ascii s)
  | VDatetime _ => Raise TypeError
  | VObjectId _ => Raise TypeError
  end.

(** [sorted(d.items())]: keys are distinct, so only keys are compared. *)
Definition item_leb (a b : string * value) : bool := str_leb (py a.1) (py b.1).

Definition item_le (x y : string * value) : Prop := item_leb x y = true.

Fixpoint insert_sorted (x : string * value) (l : pydict) : pydict :=
  match l with
  | [] => [x]
  | y :: l' => if item_leb x y then x :: y :: l' else y :: insert_sorted x l'
  end.

Definition sorted (d : pydict) : pydict := foldr insert_sorted [] d.

Definition dumps_item (key_separator : pystr) (kv : string * value) : result pystr :=
  v ← dumps_value kv.2;
  Ok (encode_basestring_ascii (py kv.1) ++ key_separator ++ v).

Fixpoint dumps_items (key_separator : pystr) (d : pydict) : result (list pystr) :=
  match d with
  | [] => Ok []
  | kv :: rest =>
      p ← dumps_item key_separator kv;
      ps ← dumps_items key_separator rest;
      Ok (p :: ps)
  end.

(** [json.dumps(d, sort_keys=.., separators=(item_separator, key_separator))] *)
Definition json_dumps (sort_keys : bool) (item_separator key_separator : pystr)
    (d : pydict) : result pystr :=
  parts ← dumps_items key_separator (if sort_keys then sorted d else d);
  Ok (py "{" ++ join item_separator parts ++ py "}").

(** ** schemas.py *)
Record ImpactAction : Type := {
  actor : pystr;
  title : pystr;
  description : option pystr;
  category : pystr;
  quantity : pyfloat;
  unit_ : pystr;                 (* [unit] in the source *)
  location : option pystr;
  evidence_url : option pystr;
  attested : bool;
  proof_hash : option pystr;
  tx_id : option pystr;
  created_at : option N;
  updated_at : option N;
}.

Definition categories : list pystr :=
  map py ["renewables"; "recycling"; "reforestation"; "transport"; "water";
          "buildings"; "circular-economy"; "other"]%string.

Definition opt_str (o : option pystr) : value :=
  match o with Some s => VStr s | None => VNone end.
Definition opt_datetime (o : option N) : value :=
  match o with Some t => VDatetime t | None => VNone end.

(** [model_dump]: every field, in declaration order, minus [exclude]. *)
Definition model_fields (a : ImpactAction) : pydict :=
  [ ("actor", VStr (actor a));
    ("title", VStr (title a));
    ("description", opt_str (description a));
    ("category", VStr (category a));
    ("quantity", VFloat (quantity a));
    ("unit", VStr (unit_ a));
    ("location", opt_str (location a));
    ("evidence_url", opt_str (evidence_url a));
    ("attested", VBool (attested a));
    ("proof_hash", opt_str (proof_hash a));
    ("tx_id", opt_str (tx_id a));
    ("created_at", opt_datetime (created_at a));
    ("updated_at", opt_datetime (updated_at a)) ]%string.

Definition model_dump (exclude : list string) (a : ImpactAction) : pydict :=
  List.filter (fun kv => negb (existsb (String.eqb kv.1) exclude)) (model_fields a).

(** ** main.py: action_proof_hash *)

(** [salt or <empty string>]: [None] and the empty salt both give the
    empty string. *)
Definition or_empty (salt : option pystr) : pystr :=
  match salt with
  | Some (c :: s) => c :: s
  | _ => []
  end.

Definition excluded : list string :=
  ["attested"; "proof_hash"; "tx_id"; "created_at"; "updated_at"]%string.

(** The local [canonical] of [action_proof_hash]. *)
Definition canonical (action : ImpactAction) (salt : option pystr) : result pystr :=
  let payload := model_dump excluded action in
  j ← json_dumps true (py ",") (py ":") payload;
  Ok (j ++ or_empty salt).

Definition action_proof_hash (action : ImpactAction) (salt : option pystr) : result pystr :=
  canonical ← canonical action salt;
  bs ← encode_utf8 canonical;
  Ok (hexdigest bs).

(** The two derivation lines of [attest_action]:
    [phash = action_proof_hash(action, salt=body.salt)] and
    [tx_id = hashlib.sha256((phash + "|tx").encode()).hexdigest()[:32]]. *)
Definition derive (action : ImpactAction) (salt : option pystr) : result (pystr * pystr) :=
  phash ← action_proof_hash action salt;
  bs ← encode_utf8 (phash ++ py "|tx");
  Ok (phash, firstn 32 (hexdigest bs)).

(** ** Built-ins applied to stored values *)

(** [float(v)] *)
Definition py_float (v : value) : result pyfloat :=
  match v with
  | VFloat x => Ok x
  | VInt z => float_of_Z z
  | VBool b => float_of_Z (if b then 1 else 0)
  | VStr s => float_of_str s
  | VNone | VDatetime _ | VObjectId _ => Raise TypeError
  end.

(** [bool(v)] *)
Definition py_bool (v : value) : bool :=
  match v with
  | VNone => false
  | VBool b => b
  | VInt z => negb (z =? 0)%Z
  | VFloat x => float_nonzero x
  | VStr s => match s with [] => false | _ => true end
  | VDatetime _ | VObjectId _ => true
  end.

(** ** pydantic validation of the [ImpactAction] fields

    A [str] field takes any [str], lone surrogates included (the [bytes]
    that lax mode also takes are outside [value]). *)
Definition validate_str (v : value) : result pystr :=
  match v with
  | VStr s => Ok s
  | _ => Raise ValidationError
  end.

Definition validate_opt_str (v : value) : result (option pystr) :=
  match v with
  | VNone => Ok None
  | _ => s ← validate_str v; Ok (Some s)
  end.

Definition validate_literal (allowed : list pystr) (v : value) : result pystr :=
  match v with
  | VStr s => if bool_decide (s ∈ allowed) then Ok s else Raise ValidationError
  | _ => Raise ValidationError
  end.

Definition validate_gt0 (x : pyfloat) : result pyfloat :=
  if float_gt0 x then Ok x else Raise ValidationError.

(** [ImpactAction(actor=.., .., tx_id=..)]; the timestamps take their
    default. *)
Definition new_ImpactAction (actor title description category : value)
    (quantity : pyfloat) (unit location evidence_url : value) (attested : bool)
    (proof_hash tx_id : value) : result ImpactAction :=
  a ← validate_str actor;
  t ← validate_str title;
  d ← validate_opt_str description;
  c ← validate_literal categories category;
  q ← validate_gt0 quantity;
  u ← validate_str unit;
  l ← validate_opt_str location;
  e ← validate_opt_str evidence_url;
  ph ← validate_opt_str proof_hash;
  tx ← validate_opt_str tx_id;
  Ok {| actor := a; title := t; description := d; category := c; quantity := q;
        unit_ := u; location := l; evidence_url := e; attested := attested;
        proof_hash := ph; tx_id := tx; created_at := None; updated_at := None |}.

(** ** Storage: the two collections *)
Abbreviation document := (gmap string value).

Record database : Type := {
  impactaction : gmap oid document;   (* keyed by [_id] *)
  proof : list document;              (* in insertion order *)
}.

(** [raw.get(k)] and [raw.get(k, default)] *)
Definition get (raw : document) (k : string) : value := default VNone (raw !! k).
Definition get_default (raw : document) (k : string) (d : value) : value :=
  default d (raw !! k).

(** [coll.find_one({"_id": o})]: the stored document with its [_id]. *)
Definition find_one_by_id (coll : gmap oid document) (o : oid) : option document :=
  d ← coll !! o; Some (<["_id" := VObjectId o]> d).

(** [coll.update_one({"_id": id}, {"$set": fields})] *)
Definition set_fields (fields : pydict) (d : document) : document :=
  foldl (fun d kv => <[kv.1 := kv.2]> d) d fields.

Definition update_one_by_id (coll : gmap oid document) (id : value) (fields : pydict)
    : gmap oid document :=
  match id with
  | VObjectId o => alter (set_fields fields) o coll
  | _ => coll
  end.

(** [coll.insert_one(doc)]; the [_id] the driver generates is not modelled. *)
Definition insert_one (coll : list document) (doc : document) : list document :=
  coll ++ [doc].

(** ** main.py: attest_action *)
Record CreateProofRequest : Type := {
  body_action_id : pystr;        (* [action_id] of the body, never read *)
  salt : option pystr;
  signer_address : option pystr;
  signature : option pystr;
  chain_id : option Z;
}.

Definition opt_int (o : option Z) : value :=
  match o with Some z => VInt z | None => VNone end.

(** The model built for hashing from the raw document. *)
Definition build_action (raw : document) : result ImpactAction :=
  q ← py_float (get raw "quantity");
  new_ImpactAction (get raw "actor") (get raw "title") (get raw "description")
    (get raw "category") q (get raw "unit") (get raw "location")
    (get raw "evidence_url") (py_bool (get_default raw "attested" (VBool false)))
    (get raw "proof_hash") (get raw "tx_id").

Definition proof_doc (now : N) (action_id : pystr) (body : CreateProofRequest)
    (phash tx : pystr) : document :=
  list_to_map
    [ ("action_id", VStr action_id);
      ("proof_hash", VStr phash);
      ("tx_id", VStr tx);
      ("network", VStr (py "sim-chain"));
      ("signer_address", opt_str (signer_address body));
      ("signature", opt_str (signature body));
      ("chain_id", opt_int (chain_id body));
      ("created_at", VDatetime now);
      ("updated_at", VDatetime now) ]%string.

Definition attested_fields (now : N) (phash tx : pystr) : pydict :=
  [ ("attested", VBool true); ("proof_hash", VStr phash); ("tx_id", VStr tx);
    ("updated_at", VDatetime now) ]%string.

(** The handler, on the module-level [db] (which may be [None]) and the
    clock reading [now]; it returns the response or the exception raised,
    and the storage it leaves.  The response [{"proof_hash": phash,
    "tx_id": tx_id}] is kept as the pair. *)
Definition attest_action (db : option database) (now : N) (action_id : pystr)
    (body : CreateProofRequest) : result (pystr * pystr) * option database :=
  match db with
  | None => (Raise (HTTPException 500 "Database not configured"), db)
  | Some st =>
      let raw :=
        match ObjectId action_id with
        | Some o => find_one_by_id (impactaction st) o
        | None => None                               (* except Exception *)
        end in
      match raw with
      | None => (Raise (HTTPException 404 "Action not found"), db)
      | Some raw =>
          if bool_decide (raw = ∅)
          then (Raise (HTTPException 404 "Action not found"), db)
          else
            match build_action raw with
            | Raise e => (Raise e, db)
            | Ok action =>
                match derive action (salt body) with
                | Raise e => (Raise e, db)
                | Ok (phash, tx) =>
                    let st1 :=
                      {| impactaction := impactaction st;
                         proof := insert_one (proof st)
                                    (proof_doc now action_id body phash tx) |} in
                    match raw !! "_id"%string with
                    | None => (Raise KeyError, Some st1)
                    | Some id =>
                        let st2 :=
                          {| impactaction :=
                               update_one_by_id (impactaction st1) id
                                 (attested_fields now phash tx);
                             proof := proof st1 |} in
                        (Ok (phash, tx), Some st2)
                    end
                end
            end
      end
  end.

(** ** Vocabulary of the specification *)

(** The eight content fields (§4.1). *)
Inductive content_field : Type :=
  | f_actor | f_title | f_description | f_category
  | f_quantity | f_unit | f_location | f_evidence_url.

Definition differs_at (f : content_field) (a a' : ImpactAction) : Prop :=
  match f with
  | f_actor => actor a <> actor a'
  | f_title => title a <> title a'
  | f_description => description a <> description a'
  | f_category => category a <> category a'
  | f_quantity => quantity a <> quantity a'
  | f_unit => unit_ a <> unit_ a'
  | f_location => location a <> location a'
  | f_evidence_url => evidence_url a <> evidence_url a'
  end.

(** The two actions agree on every content field other than [f]. *)
Definition same_except (f : content_field) (a a' : ImpactAction) : Prop :=
  (f <> f_actor -> actor a = actor a') /\
  (f <> f_title -> title a = title a') /\
  (f <> f_description -> description a = description a') /\
  (f <> f_category -> category a = category a') /\
  (f <> f_quantity -> quantity a = quantity a') /\
  (f <> f_unit -> unit_ a = unit_ a') /\
  (f <> f_location -> location a = location a') /\
  (f <> f_evidence_url -> evidence_url a = evidence_url a').

(** The value of an optional content field; [None] for the required
    ones. *)
Definition optional_value (f : content_field) (a : ImpactAction)
    : option (option pystr) :=
  match f with
  | f_description => Some (description a)
  | f_location => Some (location a)
  | f_evidence_url => Some (evidence_url a)
  | _ => None
  end.

Definition same_content (a a' : ImpactAction) : Prop :=
  actor a = actor a' /\ title a = title a' /\ description a = description a' /\
  category a = category a' /\ quantity a = quantity a' /\ unit_ a = unit_ a' /\
  location a = location a' /\ evidence_url a = evidence_url a'.

(** What pydantic guarantees of a constructed [ImpactAction]: a category
    of the closed set and a quantity greater than 0. *)
Definition valid_action (a : ImpactAction) : bool :=
  bool_decide (category a ∈ categories) && float_gt0 (quantity a).

(** What it does not guarantee: that the text of the content fields is
    free of lone surrogates. *)
Definition opt_ok (o : option pystr) : bool :=
  match o with Some s => str_ok s | None => true end.

Definition surrogate_free (a : ImpactAction) : bool :=
  str_ok (actor a) && str_ok (title a) && opt_ok (description a) &&
  str_ok (category a) && str_ok (unit_ a) && opt_ok (location a) &&
  opt_ok (evidence_url a).

(** The canonical encoding as §4.1 words it: the content fields in name
    order, a colon after each name, a comma between members, nothing
    else. *)
Definition quoted (s : pystr) : pystr := dquote :: s ++ [dquote].
Definition member (name : string) (v : pystr) : pystr := quoted (py name) ++ py ":" ++ v.
Definition json_opt (o : option pystr) : pystr :=
  match o with Some s => encode_basestring_ascii s | None => py "null" end.

Definition canonical_text (a : ImpactAction) : pystr :=
  py "{" ++ member "actor" (encode_basestring_ascii (actor a)) ++
  py "," ++ member "category" (encode_basestring_ascii (category a)) ++
  py "," ++ member "description" (json_opt (description a)) ++
  py "," ++ member "evidence_url" (json_opt (evidence_url a)) ++
  py "," ++ member "location" (json_opt (location a)) ++
  py "," ++ member "quantity" (py (floatstr (quantity a))) ++
  py "," ++ member "title" (encode_basestring_ascii (title a)) ++
  py "," ++ member "unit" (encode_basestring_ascii (unit_ a)) ++
  py "}".

(** [float.__repr__] round-trips ([float(repr(x)) == x]), so two positive
    floats with the same text are the same float. *)
Definition floatstr_round_trips : Prop :=
  forall x y : pyfloat,
    float_gt0 x = true -> float_gt0 y = true -> floatstr x = floatstr y -> x = y.

(** Sensitivity of the hash itself, on validated actions whose text has no
    lone surrogate: any change of a single content field changes
    [proof_hash]. *)
Definition proof_hash_sensitive : Prop :=
  forall (f : content_field) (a a' : ImpactAction) (salt : option pystr),
    valid_action a = true -> surrogate_free a = true ->
    valid_action a' = true -> surrogate_free a' = true ->
    same_except f a a' -> differs_at f a a' ->
    action_proof_hash a salt <> action_proof_hash a' salt.

(** The bytes handed to SHA-256 by [action_proof_hash]. *)
Definition hash_input (a : ImpactAction) (salt : option pystr) : result pybytes :=
  canonical ← canonical a salt;
  encode_utf8 canonical.

(** UTF-8 of a string without surrogates. *)
Definition utf8 (s : pystr) : pybytes := flat_map utf8_char s.

(** [derive] as §4.2 words it. *)
Definition derive_spec (a : ImpactAction) (salt : option pystr) : pystr * pystr :=
  let salt_string := default [] salt in
  let proof_hash :=
    hex_of_bytes (SHA256.sha256 (utf8 (canonical_text a) ++ utf8 salt_string)) in
  let tx_id :=
    firstn 32 (hex_of_bytes (SHA256.sha256 (utf8 (proof_hash ++ py "|tx")))) in
  (proof_hash, tx_id).

End GreenProof.

Definition is_lower_hex (c : N) : bool :=
  ((48 <=? c) && (c <=? 57)) || ((97 <=? c) && (c <=? 102)).

(** All strings of length [n] over an alphabet. *)
Fixpoint all_words (alphabet : list N) (n : nat) : list pystr :=
  match n with
  | O => [[]]
  | S n' => flat_map (fun w => map (fun c => c :: w) alphabet) (all_words alphabet n')
  end.

Definition lower_hex_digits : list N := py "0123456789abcdef".

(** ** The end-to-end scenario of [tests/test_e2e.py] *)
Definition test_action : @ImpactAction tenths_float := {|
  actor := py "Test User";
  title := py "Solar generation";
  description := Some (py "Generated clean energy from rooftop PV");
  category := py "renewables";
  quantity := 125%Z : @pyfloat tenths_float;
  unit_ := py "kWh";
  location := Some (py "Test City");
  evidence_url := Some (py "https://example.com/evidence.jpg");
  attested := false; proof_hash := None; tx_id := None;
  created_at := None; updated_at := None |}.

Definition test_proof_hash : pystr :=
  py "ec13746adb3aa39743e77ce3962c3387c86f2d7860fdb92420c41e4b2bc41444".
Definition test_tx_id : pystr := py "b2f1ed78813ab7663751f35e7ea1bcfe".

(** The scenario's action under a title of [n] letters. *)
Definition titled (n : nat) : @ImpactAction tenths_float := {|
  actor := actor test_action;
  title := repeat 97 n;
  description := description test_action;
  category := category test_action;
  quantity := quantity test_action;
  unit_ := unit_ test_action;
  location := location test_action;
  evidence_url := evidence_url test_action;
  attested := false; proof_hash := None; tx_id := None;
  created_at := None; updated_at := None |}.

(** The scenario's action without a description, and with the four
    letters "null" as its description. *)
Definition test_action_described (o : option pystr) : @ImpactAction tenths_float := {|
  actor := actor test_action;
  title := title test_action;
  description := o;
  category := category test_action;
  quantity := quantity test_action;
  unit_ := unit_ test_action;
  location := location test_action;
  evidence_url := evidence_url test_action;
  attested := false; proof_hash := None; tx_id := None;
  created_at := None; updated_at := None |}.

(** The same content, attested and stamped. *)
Definition test_action_attested : @ImpactAction tenths_float := {|
  actor := actor test_action;
  title := title test_action;
  description := description test_action;
  category := category test_action;
  quantity := quantity test_action;
  unit_ := unit_ test_action;
  location := location test_action;
  evidence_url := evidence_url test_action;
  attested := true;
  proof_hash := Some test_proof_hash;
  tx_id := Some test_tx_id;
  created_at := Some 1700000000; updated_at := Some 1700000100 |}.

(** The attested action as [attest_action] rebuilds it from storage (the
    timestamps are not passed to the constructor). *)
Definition test_action_rebuilt : @ImpactAction tenths_float := {|
  actor := actor test_action;
  title := title test_action;
  description := description test_action;
  category := category test_action;
  quantity := quantity test_action;
  unit_ := unit_ test_action;
  location := location test_action;
  evidence_url := evidence_url test_action;
  attested := true;
  proof_hash := Some test_proof_hash;
  tx_id := Some test_tx_id;
  created_at := None; updated_at := None |}.

Definition test_doc : gmap string (@value tenths_float) :=
  list_to_map
    [ ("actor", VStr (py "Test User"));
      ("title", VStr (py "Solar generation"));
      ("description", VStr (py "Generated clean energy from rooftop PV"));
      ("category", VStr (py "renewables"));
      ("quantity", @VFloat tenths_float 125%Z);
      ("unit", VStr (py "kWh"));
      ("location", VStr (py "Test City"));
      ("evidence_url", VStr (py "https://example.com/evidence.jpg"));
      ("attested", VBool false);
      ("proof_hash", VNone);
      ("tx_id", VNone);
      ("created_at", VDatetime 1700000000);
      ("updated_at", VDatetime 1700000000) ]%string.

Definition test_id : pystr := py "65a1b2c3d4e5f60718293a4b".
Definition test_oid : oid := default [] (ObjectId test_id).

Definition test_db : @database tenths_float :=
  {| impactaction := {[ test_oid := test_doc ]}; proof := [] |}.

Definition test_body : CreateProofRequest := {|
  body_action_id := test_id;
  salt := None;
  signer_address := Some (py "0xDeaDbeef00000000000000000000000000000000");
  signature := Some (py "0x");
  chain_id := Some 1337%Z |}.


(** An action with code points outside ASCII, and a salt with some. *)
Definition unicode_action : @ImpactAction tenths_float := {|
  actor := [90; 111; 235; 32; 128512; 32; 34; 113; 34; 92; 10; 9; 127];
  title := py "t";
  description := None;
  category := py "other";
  quantity := 125%Z : @pyfloat tenths_float;
  unit_ := py "kg";
  location := None;
  evidence_url := None;
  attested := false; proof_hash := None; tx_id := None;
  created_at := None; updated_at := None |}.

Definition unicode_salt : pystr := [115; 233; 108; 8364; 128512].


(** A well-formed identifier that is not stored, and a malformed one. *)
Definition absent_id : pystr := py "000000000000000000000000".
Definition malformed_id : pystr := py "nonexistent-id".

(** ** main.py: the listing handlers and the database probe *)

Section Handlers.

Context {F : PyFloat}.

(** The float text contains no comma (digits, a point, a sign, an exponent,
    or one of the three names [json.dumps] writes). *)
Definition floatstr_comma_free : Prop :=
  forall x : pyfloat, ~ In 44 (py (floatstr x)).

(** [str(x)] of a float and of a datetime are left as parameters. *)
Variable float_text : pyfloat -> pystr.
Variable datetime_text : N -> pystr.

(** [str(v)]; of an [ObjectId] it is its 24 hexadecimal digits. *)
Definition py_str (v : value) : pystr :=
  match v with
  | VNone => py "None"
  | VBool true => py "True"
  | VBool false => py "False"
  | VInt z => int_repr z
  | VFloat x => float_text x
  | VStr s => s
  | VDatetime t => datetime_text t
  | VObjectId o => hex_of_bytes o
  end.

(** [d["id"] = str(d.pop("_id"))] *)
Definition surface_id (d : gmap string value) : result (gmap string value) :=
  match d !! "_id"%string with
  | None => Raise KeyError
  | Some v => Ok (<["id"%string := VStr (py_str v)]> (delete "_id"%string d))
  end.

(** [if k not in d: d[k] = None] *)
Definition normalize_key (k : string) (d : gmap string value) : gmap string value :=
  match d !! k with
  | None => <[k := VNone]> d
  | Some _ => d
  end.

(** [for d in docs: body] on dictionaries that the loop updates in place. *)
Fixpoint for_each (body : gmap string value -> result (gmap string value))
    (docs : list (gmap string value)) : result (list (gmap string value)) :=
  match docs with
  | [] => Ok []
  | d :: rest =>
      d' ← body d;
      rest' ← for_each body rest;
      Ok (d' :: rest')
  end.

(** [list_actions], on the list [docs] that
    [get_documents("impactaction", {}, limit=100)] returned. *)
Definition list_actions (docs : list (gmap string value))
    : result (list (gmap string value)) :=
  for_each surface_id docs.

(** [list_proofs], on the list that [get_documents("proof", {}, limit=100)]
    returned. *)
Definition list_proofs (docs : list (gmap string value))
    : result (list (gmap string value)) :=
  for_each
    (fun d =>
       d ← surface_id d;
       let d := normalize_key "signer_address" d in
       let d := normalize_key "signature" d in
       let d := normalize_key "chain_id" d in
       Ok d)
    docs.

End Handlers.

(** [test_database].  The module-level [db] is [None], or a handle whose
    [list_collection_names()] returns names or raises an exception [e] with
    [str(e) = message]; the two environment variables are read with
    [os.getenv]. *)
Module Probe.

Inductive db_handle : Type :=
  | DbNone
  | DbNames (names : list pystr)
  | DbRaises (message : pystr).

Record response : Type := {
  backend : pystr;
  database : pystr;
  database_url : pystr;
  database_name : pystr;
  connection_status : pystr;
  collections : list pystr;
}.

Definition check_mark : N := 9989.
Definition cross_mark : N := 10060.
Definition warning_sign : pystr := [9888; 65039].

(** ["✅ Set" if os.getenv(..) else "❌ Not Set"] *)
Definition set_flag (v : option pystr) : pystr :=
  match v with
  | Some (_ :: _) => check_mark :: py " Set"
  | _ => cross_mark :: py " Not Set"
  end.

Definition test_database (db : db_handle) (DATABASE_URL DATABASE_NAME : option pystr)
    : response :=
  let not_set := cross_mark :: py " Not Set" in
  match db with
  | DbNone =>
      {| backend := check_mark :: py " Running";
         database := warning_sign ++ py " Available but not initialized";
         database_url := not_set;
         database_name := not_set;
         connection_status := py "Not Connected";
         collections := [] |}
  | DbNames names =>
      {| backend := check_mark :: py " Running";
         database := check_mark :: py " Available";
         database_url := set_flag DATABASE_URL;
         database_name := set_flag DATABASE_NAME;
         connection_status := py "Connected";
         collections := firstn 10 names |}
  | DbRaises message =>
      {| backend := check_mark :: py " Running";
         database := cross_mark :: py " Error: " ++ firstn 100 message;
         database_url := set_flag DATABASE_URL;
         database_name := set_flag DATABASE_NAME;
         connection_status := py "Not Connected";
         collections := [] |}
  end.

End Probe.

(** ** Further documents of the scenario *)

(** The scenario's document as [get_documents] returns it. *)
Definition test_doc_listed : gmap string (@value tenths_float) :=
  <["_id"%string := VObjectId test_oid]> test_doc.

(** The same identifier with its letters in upper case. *)
Definition test_id_upper : pystr := py "65A1B2C3D4E5F60718293A4B".

(** Documents without a quantity, and with a negative one. *)
Definition test_db_no_quantity : @database tenths_float :=
  {| impactaction := {[ test_oid := delete "quantity"%string test_doc ]}; proof := [] |}.

Definition test_db_negative_quantity : @database tenths_float :=
  {| impactaction :=
       {[ test_oid := <["quantity"%string := @VFloat tenths_float (-5)%Z]> test_doc ]};
     proof := [] |}.

(** A document with the required fields only, and the same with every
    other field written out as [None]. *)
Definition test_doc_sparse : gmap string (@value tenths_float) :=
  list_to_map
    [ ("actor", VStr (py "Test User"));
      ("title", VStr (py "Solar generation"));
      ("category", VStr (py "renewables"));
      ("quantity", @VFloat tenths_float 125%Z);
      ("unit", VStr (py "kWh")) ]%string.

Definition test_doc_nulls : gmap string (@value tenths_float) :=
  list_to_map
    [ ("actor", VStr (py "Test User"));
      ("title", VStr (py "Solar generation"));
      ("description", VNone);
      ("category", VStr (py "renewables"));
      ("quantity", @VFloat tenths_float 125%Z);
      ("unit", VStr (py "kWh"));
      ("location", VNone);
      ("evidence_url", VNone);
      ("attested", VBool false);
      ("proof_hash", VNone);
      ("tx_id", VNone);
      ("created_at", VDatetime 1700000000);
      ("updated_at", VDatetime 1700000000) ]%string.

(** The model built from either of them. *)
Definition test_action_sparse : @ImpactAction tenths_float := {|
  actor := py "Test User";
  title := py "Solar generation";
  description := None;
  category := py "renewables";
  quantity := 125%Z : @pyfloat tenths_float;
  unit_ := py "kWh";
  location := None;
  evidence_url := None;
  attested := false; proof_hash := None; tx_id := None;
  created_at := None; updated_at := None |}.

(** Texts for a float and a datetime, to run the listings. *)
Definition tenths_text (z : @pyfloat tenths_float) : pystr := py (tenths_str z).
Definition seconds_text (t : N) : pystr := int_repr (Z.of_N t).

(** Two titles with one escaped form: the two halves of a surrogate pair
    as separate code points, and the code point they encode. *)
Definition surrogate_title_doc : gmap string (@value tenths_float) :=
  <["title"%string := VStr [0xD83D; 0xDE00]]> test_doc.
Definition astral_title_doc : gmap string (@value tenths_float) :=
  <["title"%string := VStr [0x1F600]]> test_doc.

Definition surrogate_title_action : @ImpactAction tenths_float := {|
  actor := actor test_action;
  title := [0xD83D; 0xDE00];
  description := description test_action;
  category := category test_action;
  quantity := quantity test_action;
  unit_ := unit_ test_action;
  location := location test_action;
  evidence_url := evidence_url test_action;
  attested := false; proof_hash := None; tx_id := None;
  created_at := None; updated_at := None |}.

Definition astral_title_action : @ImpactAction tenths_float := {|
  actor := actor test_action;
  title := [0x1F600];
  description := description test_action;
  category := category test_action;
  quantity := quantity test_action;
  unit_ := unit_ test_action;
  location := location test_action;
  evidence_url := evidence_url test_action;
  attested := false; proof_hash := None; tx_id := None;
  created_at := None; updated_at := None |}.


(** A second stored action. *)
Definition other_oid : oid := default [] (ObjectId (py "0123456789abcdef01234567")).

Definition test_db_two : @database tenths_float :=
  {| impactaction := <[other_oid := test_doc_sparse]> {[ test_oid := test_doc ]};
     proof := [] |}.

(** A stored Proof document without the optional keys. *)
Definition legacy_proof : gmap string (@value tenths_float) :=
  list_to_map
    [ ("_id", VObjectId other_oid);
      ("action_id", VStr test_id);
      ("proof_hash", VStr test_proof_hash);
      ("tx_id", VStr test_tx_id) ]%string.

(** What [list_proofs] makes of it. *)
Definition legacy_listed : list (gmap string (@value tenths_float)) :=
  match list_proofs tenths_text seconds_text [legacy_proof] with
  | Ok l => l
  | Raise _ => []
  end.

(** The computed constants are those printed in FIPS 180-4. *)
Example sha256_constants :
  length SHA256.K = 64%nat /\
  nth 0 SHA256.K 0 = 0x428a2f98 /\ nth 63 SHA256.K 0 = 0xc67178f2 /\
  SHA256.ra SHA256.H0 = 0x6a09e667 /\ SHA256.rh SHA256.H0 = 0x5be0cd19.
Proof. repeat split. Qed.

Example sha256_abc :
  hexdigest (py "abc") = py "ba7816bf8f01cfea414140de5dae2223b00361a396177a9cb410ff61f20015ad".
Proof. vm_compute. reflexivity. Qed.

Example sha256_empty :
  hexdigest [] = py "e3b0c44298fc1c149afbf4c8996fb92427ae41e4649b934ca495991b7852b855".
Proof. vm_compute. reflexivity. Qed.

Example sha256_two_blocks :
  hexdigest (repeat 97 119) = py "31eba51c313a5c08226adf18d4a359cfdfd8d2e816b13f4af952f7ea6584dcfb".
Proof. vm_compute. reflexivity. Qed.

Example sha256_pad_boundary :
  hexdigest (repeat 97 55) = py "9f4390f8d30c2dd92ec9f095b65e2b9ae9b0a925a5258e241c9f1e910f734318" /\
  hexdigest (repeat 97 56) = py "b35439a4ac6f0948b6d6f9e3c6af0f5f590ce20f1bde7090ef7970686ec6738a" /\
  hexdigest (repeat 97 64) = py "ffe054fe7ae0cb6dc65c3af9b61d5209f439851db43d0ba5997337df154668eb".
Proof. vm_compute. repeat split. Qed.

(** The model reproduces what the interpreter computes for the scenario of
    the tests and for a payload with escapes and a non-ASCII salt. *)
Example test_action_derive :
  derive test_action None = Ok (test_proof_hash, test_tx_id).
Proof. vm_compute. reflexivity. Qed.

Example unicode_action_derive :
  derive unicode_action (Some unicode_salt) =
  Ok (py "3c8871b09abc8a072006aa4d51b04b3436d66ea682c0993ce53f18456d46e157",
      py "f537301cf5121d5e5fdaec15b5f1936f").
Proof. vm_compute. reflexivity. Qed.

Example test_attest_response :
  (attest_action (Some test_db) 1700000100 test_id test_body).1 =
  Ok (test_proof_hash, test_tx_id).
Proof. vm_compute. reflexivity. Qed.

(** * Properties *)

(** ** Arithmetic on code points *)

Ltac n_cases :=
  repeat match goal with
    | |- context [N.ltb ?a ?b] => destruct (N.ltb_spec a b)
    | |- context [N.leb ?a ?b] => destruct (N.leb_spec a b)
    | |- context [N.eqb ?a ?b] => destruct (N.eqb_spec a b)
    end;
  simpl; try lia; try discriminate; try reflexivity.

Lemma hexdigit_lower d : d < 16 -> is_lower_hex (hexdigit d) = true.
Proof. intros Hd. unfold hexdigit, is_lower_hex. n_cases. Qed.

Lemma lower_hex_lt_128 c : is_lower_hex c = true -> c < 128.
Proof. unfold is_lower_hex. n_cases. Qed.

(** ** The digest: thirty-two octets, sixty-four lowercase digits *)

Lemma be_bytes_length n x : length (SHA256.be_bytes n x) = n.
Proof. unfold SHA256.be_bytes. by rewrite length_map, length_rev, length_seq. Qed.

Lemma be_bytes_octets n x : Forall (fun b => b < 256) (SHA256.be_bytes n x).
Proof.
  unfold SHA256.be_bytes. apply Forall_map, Forall_forall. intros i _. simpl.
  apply N.mod_lt. lia.
Qed.

Lemma sha256_length msg : length (SHA256.sha256 msg) = 32%nat.
Proof.
  unfold SHA256.sha256, SHA256.digest_of.
  by rewrite !length_app, !be_bytes_length.
Qed.

Lemma sha256_octets msg : Forall (fun b => b < 256) (SHA256.sha256 msg).
Proof.
  unfold SHA256.sha256, SHA256.digest_of.
  repeat (apply Forall_app; split); apply be_bytes_octets.
Qed.

Lemma hex_of_bytes_length bs : length (hex_of_bytes bs) = (2 * length bs)%nat.
Proof. induction bs as [|b bs IH]; simpl; [done | rewrite IH; lia]. Qed.

Lemma hex_of_bytes_lower bs :
  Forall (fun b => b < 256) bs -> forallb is_lower_hex (hex_of_bytes bs) = true.
Proof.
  induction 1 as [|b bs Hb _ IH]; simpl; [done |].
  rewrite IH, !hexdigit_lower; [done | |].
  - apply N.mod_lt. lia.
  - apply N.Div0.div_lt_upper_bound. lia.
Qed.

Lemma hexdigest_length msg : length (hexdigest msg) = 64%nat.
Proof. unfold hexdigest. by rewrite hex_of_bytes_length, sha256_length. Qed.

Lemma hexdigest_lower msg : forallb is_lower_hex (hexdigest msg) = true.
Proof. apply hex_of_bytes_lower, sha256_octets. Qed.

(** ** UTF-8 *)

Lemma str_ok_app s t : str_ok (s ++ t) = str_ok s && str_ok t.
Proof. apply forallb_app. Qed.

Lemma str_ok_below (bound : N) s :
  bound <= 0xD800 -> Forall (fun c => c < bound) s -> str_ok s = true.
Proof.
  intros Hb Hs. apply forallb_forall. intros c Hc.
  rewrite Forall_forall in Hs. apply list_elem_of_In, Hs in Hc.
  unfold is_scalar. n_cases.
Qed.

Lemma py_below s : Forall (fun c => c < 256) (py s).
Proof.
  unfold py. apply Forall_map, Forall_forall. intros a _. simpl.
  apply N_ascii_bounded.
Qed.

Lemma str_ok_py s : str_ok (py s) = true.
Proof. apply (str_ok_below 256); [lia | apply py_below]. Qed.

Lemma str_ok_lower_hex s : forallb is_lower_hex s = true -> str_ok s = true.
Proof.
  intros Hs. apply (str_ok_below 128); [lia |].
  apply Forall_forall. intros c Hc. apply lower_hex_lt_128.
  rewrite forallb_forall in Hs. by apply Hs, list_elem_of_In.
Qed.

Lemma encode_utf8_ok s : str_ok s = true -> encode_utf8 s = Ok (utf8 s).
Proof.
  induction s as [|c s IH]; simpl; [done |].
  intros [Hc Hs]%andb_true_iff. by rewrite Hc, (IH Hs).
Qed.

Lemma encode_utf8_fails s : str_ok s = false -> encode_utf8 s = Raise UnicodeEncodeError.
Proof.
  induction s as [|c s IH]; simpl; [done |].
  destruct (is_scalar c); simpl; [| done]. intros Hs. by rewrite (IH Hs).
Qed.

Lemma utf8_app s t : utf8 (s ++ t) = utf8 s ++ utf8 t.
Proof. apply flat_map_app. Qed.

Lemma utf8_ascii s : Forall (fun c => c < 128) s -> utf8 s = s.
Proof.
  unfold utf8. induction 1 as [|c s Hc _ IH]; simpl; [done |].
  rewrite IH. unfold utf8_char.
  destruct (N.ltb_spec c 128); [done | lia].
Qed.

(** ** Order on strings and the sort of [json.dumps] *)

Lemma py_inj s t : py s = py t -> s = t.
Proof.
  unfold py. intros H.
  rewrite <- (string_of_list_ascii_of_string s), <- (string_of_list_ascii_of_string t).
  f_equal. revert H. generalize (list_ascii_of_string t).
  induction (list_ascii_of_string s) as [|a l IH]; intros [|b l']; simpl; try done.
  intros [= Hab Hl]. f_equal; [| by apply IH].
  by rewrite <- (ascii_N_embedding a), <- (ascii_N_embedding b), Hab.
Qed.

Lemma str_leb_total a b : str_leb a b = true \/ str_leb b a = true.
Proof.
  revert b. induction a as [|x a IH]; intros [|y b]; simpl; auto.
  destruct (N.ltb_spec x y), (N.ltb_spec y x); auto; try lia.
  assert (x = y) as -> by lia. rewrite N.eqb_refl. apply IH.
Qed.

Lemma str_leb_antisym a b : str_leb a b = true -> str_leb b a = true -> a = b.
Proof.
  revert b. induction a as [|x a IH]; intros [|y b]; simpl; try done.
  destruct (N.ltb_spec x y), (N.ltb_spec y x); try lia.
  - destruct (N.eqb_spec y x); [lia | done].
  - destruct (N.eqb_spec x y); [lia | done].
  - assert (x = y) as -> by lia. rewrite N.eqb_refl. intros. f_equal. by apply IH.
Qed.

Lemma str_leb_trans a b c : str_leb a b = true -> str_leb b c = true -> str_leb a c = true.
Proof.
  revert b c. induction a as [|x a IH]; intros [|y b] [|z c]; simpl; try done.
  destruct (N.ltb_spec x y), (N.ltb_spec y z), (N.ltb_spec x z); try done; try lia;
    destruct (N.eqb_spec x y), (N.eqb_spec y z), (N.eqb_spec x z); try done; try lia.
  apply IH.
Qed.

Section Properties.

Context {F : PyFloat}.

Lemma insert_sorted_perm x l : Permutation (insert_sorted x l) (x :: l).
Proof.
  induction l as [|y l IH]; simpl; [done |].
  destruct (item_leb x y); [done |].
  rewrite IH. apply perm_swap.
Qed.

Lemma sorted_perm d : Permutation (sorted d) d.
Proof.
  induction d as [|x d IH]; simpl; [done |].
  by rewrite insert_sorted_perm, IH.
Qed.

Lemma insert_sorted_sorted x l :
  StronglySorted item_le l -> StronglySorted item_le (insert_sorted x l).
Proof.
  induction 1 as [|y l Hl IH Hy]; simpl.
  - repeat constructor.
  - destruct (item_leb x y) eqn:Hxy.
    + constructor; [by constructor |].
      constructor; [done |].
      eapply Forall_impl; [exact Hy |]. intros z Hz.
      unfold item_le, item_leb in *. by eapply str_leb_trans.
    + constructor; [done |].
      rewrite (insert_sorted_perm x l). constructor; [| done].
      unfold item_le, item_leb in *.
      destruct (str_leb_total (py x.1) (py y.1)); congruence.
Qed.

Lemma sorted_sorted d : StronglySorted item_le (sorted d).
Proof.
  induction d as [|x d IH]; simpl; [constructor | by apply insert_sorted_sorted].
Qed.

Lemma same_key_same_item (l : pydict) x y :
  NoDup (map fst l) -> In x l -> In y l -> x.1 = y.1 -> x = y.
Proof.
  induction l as [|z l IH]; simpl; [done |].
  intros [Hz Hl]%NoDup_cons [-> | Hx] [-> | Hy] Hk; auto.
  - exfalso. apply Hz. rewrite Hk. apply list_elem_of_In, in_map, Hy.
  - exfalso. apply Hz. rewrite <- Hk. apply list_elem_of_In, in_map, Hx.
Qed.

(** Two sorted arrangements of one dictionary coincide. *)
Lemma sorted_arrangement_unique (l1 l2 : pydict) :
  NoDup (map fst l1) -> Permutation l1 l2 ->
  StronglySorted item_le l1 -> StronglySorted item_le l2 -> l1 = l2.
Proof.
  revert l2. induction l1 as [|x l1 IH]; intros l2 Hnd Hp H1 H2.
  - by apply Permutation_nil in Hp.
  - destruct l2 as [|y l2]; [by apply Permutation_sym, Permutation_nil in Hp |].
    assert (x = y) as <-.
    { apply (same_key_same_item (x :: l1)); [done | by left | |].
      - eapply Permutation_in; [symmetry; exact Hp | by left].
      - apply py_inj.
        apply StronglySorted_inv in H1 as [_ H1], H2 as [_ H2].
        rewrite Forall_forall in H1, H2.
        assert (In y (x :: l1)) as [-> | Hy]
          by (eapply Permutation_in; [symmetry; exact Hp | by left]); [done |].
        assert (In x (y :: l2)) as [-> | Hx]
          by (eapply Permutation_in; [exact Hp | by left]); [done |].
        apply str_leb_antisym; [apply H1 | apply H2]; by apply list_elem_of_In. }
    f_equal. apply IH.
    + by apply NoDup_cons in Hnd as [_ ?].
    + by apply Permutation_cons_inv in Hp.
    + by apply StronglySorted_inv in H1 as [? _].
    + by apply StronglySorted_inv in H2 as [? _].
Qed.

Lemma sorted_of_permutation (d d' : pydict) :
  NoDup (map fst d) -> Permutation d' d -> sorted d' = sorted d.
Proof.
  intros Hnd Hp. apply sorted_arrangement_unique; try apply sorted_sorted.
  - rewrite sorted_perm, Hp. done.
  - by rewrite !sorted_perm.
Qed.

(** ** The canonical text *)

Lemma model_dump_excluded a :
  model_dump excluded a =
  [ ("actor", VStr (actor a)); ("title", VStr (title a));
    ("description", opt_str (description a)); ("category", VStr (category a));
    ("quantity", VFloat (quantity a)); ("unit", VStr (unit_ a));
    ("location", opt_str (location a));
    ("evidence_url", opt_str (evidence_url a)) ]%string.
Proof. reflexivity. Qed.

Lemma sorted_model_dump a :
  sorted (model_dump excluded a) =
  [ ("actor", VStr (actor a)); ("category", VStr (category a));
    ("description", opt_str (description a));
    ("evidence_url", opt_str (evidence_url a));
    ("location", opt_str (location a)); ("quantity", VFloat (quantity a));
    ("title", VStr (title a)); ("unit", VStr (unit_ a)) ]%string.
Proof. reflexivity. Qed.

Lemma model_dump_keys_distinct a : NoDup (map fst (model_dump excluded a)).
Proof.
  rewrite model_dump_excluded. simpl.
  repeat (apply NoDup_cons_2; [rewrite ?elem_of_cons, elem_of_nil; intuition discriminate |]).
  apply NoDup_nil_2.
Qed.

Lemma dumps_value_opt o : dumps_value (opt_str o) = Ok (json_opt o).
Proof. by destruct o. Qed.

Lemma json_dumps_model_dump a :
  json_dumps true (py ",") (py ":") (model_dump excluded a) = Ok (canonical_text a).
Proof.
  unfold json_dumps. rewrite sorted_model_dump.
  unfold dumps_items, dumps_item. simpl.
  rewrite !dumps_value_opt. simpl.
  unfold canonical_text, member, quoted. simpl.
  repeat (rewrite <- ?app_assoc; simpl). reflexivity.
Qed.

Lemma canonical_eq a salt :
  canonical a salt = Ok (canonical_text a ++ or_empty salt).
Proof. unfold canonical. by rewrite json_dumps_model_dump. Qed.

Lemma bind_Ok {A B} (x : A) (f : A -> result B) : (Ok x ≫= f) = f x.
Proof. reflexivity. Qed.

Lemma or_empty_default salt : or_empty salt = default [] salt.
Proof. by destruct salt as [[|c s]|]. Qed.

Lemma hexdigit_lt_128 d : d < 16 -> hexdigit d < 128.
Proof. intros. by apply lower_hex_lt_128, hexdigit_lower. Qed.

Lemma hex4_below n : Forall (fun c => c < 128) (hex4 n).
Proof.
  unfold hex4. repeat constructor; apply hexdigit_lt_128, N.mod_lt; lia.
Qed.

Lemma escape_char_below c : Forall (fun x => x < 128) (escape_char c).
Proof.
  unfold escape_char, backslash, dquote.
  repeat match goal with
    | |- context [N.eqb ?a ?b] => destruct (N.eqb_spec a b)
    end;
  try destruct (N.leb_spec 32 c); try destruct (N.leb_spec c 126);
  try destruct (N.ltb_spec c 65536); simpl;
  repeat first [ apply hex4_below | apply Forall_nil_2
               | apply Forall_cons_2;
                   [first [lia | apply hexdigit_lt_128, N.mod_lt; lia] |]
               | apply Forall_app; split ].
Qed.

Lemma encode_basestring_ascii_below s :
  Forall (fun x => x < 128) (encode_basestring_ascii s).
Proof.
  unfold encode_basestring_ascii, dquote. constructor; [lia |].
  apply Forall_app; split; [| repeat constructor; lia].
  induction s as [|c s IH]; simpl; [constructor |].
  apply Forall_app; split; [apply escape_char_below | done].
Qed.

Lemma str_ok_json_str s : str_ok (encode_basestring_ascii s) = true.
Proof. apply (str_ok_below 128); [lia | apply encode_basestring_ascii_below]. Qed.

Lemma str_ok_json_opt o : str_ok (json_opt o) = true.
Proof. destruct o; [apply str_ok_json_str | done]. Qed.

Lemma str_ok_canonical_text a : str_ok (canonical_text a) = true.
Proof.
  unfold canonical_text, member, quoted.
  repeat (rewrite ?str_ok_app, ?str_ok_json_str, ?str_ok_json_opt, ?str_ok_py; simpl).
  reflexivity.
Qed.

(** The hash, written out on the bytes that go into SHA-256. *)
Lemma action_proof_hash_eq a salt :
  str_ok (default [] salt) = true ->
  action_proof_hash a salt =
  Ok (hexdigest (utf8 (canonical_text a) ++ utf8 (default [] salt))).
Proof.
  intros Hs. unfold action_proof_hash.
  rewrite canonical_eq, bind_Ok, or_empty_default, encode_utf8_ok, bind_Ok, utf8_app; [done |].
  by rewrite str_ok_app, str_ok_canonical_text.
Qed.

Lemma tx_marker_ok ph :
  forallb is_lower_hex ph = true -> str_ok (ph ++ py "|tx") = true.
Proof. intros Hph. by rewrite str_ok_app, str_ok_lower_hex, str_ok_py. Qed.

Lemma same_content_canonical_text a a' :
  same_content a a' -> canonical_text a = canonical_text a'.
Proof.
  intros (H1 & H2 & H3 & H4 & H5 & H6 & H7 & H8). unfold canonical_text.
  by rewrite H1, H2, H3, H4, H5, H6, H7, H8.
Qed.

Lemma same_content_model_dump a a' :
  same_content a a' -> model_dump excluded a = model_dump excluded a'.
Proof.
  intros (H1 & H2 & H3 & H4 & H5 & H6 & H7 & H8). rewrite !model_dump_excluded.
  by rewrite H1, H2, H3, H4, H5, H6, H7, H8.
Qed.

Lemma json_dumps_of_permutation a d :
  Permutation d (model_dump excluded a) ->
  json_dumps true (py ",") (py ":") d = Ok (canonical_text a).
Proof.
  intros Hp. rewrite <- json_dumps_model_dump. unfold json_dumps.
  by rewrite (sorted_of_permutation _ _ (model_dump_keys_distinct a) Hp).
Qed.

Lemma derive_same_content a a' salt :
  same_content a a' -> derive a salt = derive a' salt.
Proof.
  intros Hc. unfold derive, action_proof_hash.
  by rewrite !canonical_eq, (same_content_canonical_text _ _ Hc).
Qed.

Lemma forallb_take {A} (p : A -> bool) n l :
  forallb p l = true -> forallb p (firstn n l) = true.
Proof.
  intros Hl. apply forallb_forall. intros c Hc%list_elem_of_In%elem_of_take.
  destruct Hc as (i & Hc & _). apply list_elem_of_lookup_2, list_elem_of_In in Hc.
  revert c Hc. by apply forallb_forall.
Qed.

Lemma derive_Ok_hex a salt ph tx :
  derive a salt = Ok (ph, tx) ->
  forallb is_lower_hex ph = true /\ forallb is_lower_hex tx = true.
Proof.
  unfold derive, action_proof_hash.
  destruct (canonical a salt) as [c|]; [| done]. rewrite bind_Ok.
  destruct (encode_utf8 c) as [bs|]; [| done]. rewrite !bind_Ok.
  destruct (encode_utf8 _) as [bs'|]; [| done]. rewrite bind_Ok.
  intros Heq.
  assert (ph = hexdigest bs /\ tx = firstn 32 (hexdigest bs')) as [-> ->]
    by (split; congruence).
  split; [| apply forallb_take]; apply hexdigest_lower.
Qed.

Lemma derive_encodable a salt :
  str_ok (default [] salt) = true -> derive a salt = Ok (derive_spec a salt).
Proof.
  intros Hs. unfold derive, derive_spec.
  rewrite (action_proof_hash_eq a salt Hs), bind_Ok.
  rewrite encode_utf8_ok by apply tx_marker_ok, hexdigest_lower.
  reflexivity.
Qed.

Lemma derive_unencodable a salt :
  str_ok (default [] salt) = false -> derive a salt = Raise UnicodeEncodeError.
Proof.
  intros Hs. unfold derive, action_proof_hash.
  rewrite canonical_eq, bind_Ok, or_empty_default, encode_utf8_fails; [done |].
  by rewrite str_ok_app, Hs, andb_false_r.
Qed.

(** C1 (amended).  When the salt can be encoded (it holds no lone
    surrogate; an absent salt is the empty string), [derive] returns the pair
    of §4.2: the hex SHA-256 digest of the canonical bytes followed by the
    bytes of the salt, and the first 32 hex characters of the digest of that
    hash followed by the marker.  Otherwise [str.encode] raises
    [UnicodeEncodeError] and there is no pair. *)
Theorem derive_refines_spec a salt :
  derive a salt =
  if str_ok (default [] salt) then Ok (derive_spec a salt)
  else Raise UnicodeEncodeError.
Proof.
  destruct (str_ok (default [] salt)) eqn:Hs.
  - by apply derive_encodable.
  - by apply derive_unencodable.
Qed.

(** C6.  Every pair that [derive] returns has a [proof_hash] of exactly 64
    lowercase hexadecimal characters and a [tx_id] of exactly 32, and
    [tx_id] is the first 32 characters of the hex digest of [proof_hash]
    followed by the marker. *)
Theorem derive_lengths a salt ph tx :
  derive a salt = Ok (ph, tx) ->
  length ph = 64%nat /\ forallb is_lower_hex ph = true /\
  length tx = 32%nat /\ forallb is_lower_hex tx = true /\
  tx = firstn 32 (hexdigest (utf8 (ph ++ py "|tx"))).
Proof.
  unfold derive, action_proof_hash.
  destruct (canonical a salt) as [c|]; [| done]. rewrite bind_Ok.
  destruct (encode_utf8 c) as [bs|]; [| done]. rewrite !bind_Ok.
  rewrite encode_utf8_ok by apply tx_marker_ok, hexdigest_lower. rewrite bind_Ok.
  intros Heq.
  assert (ph = hexdigest bs) as -> by congruence.
  assert (tx = firstn 32 (hexdigest (utf8 (hexdigest bs ++ py "|tx")))) as ->
    by congruence.
  split; [apply hexdigest_length |].
  split; [apply hexdigest_lower |].
  split; [by rewrite length_take, hexdigest_length |].
  split; [| reflexivity].
  apply forallb_take, hexdigest_lower.
Qed.

(** C5.  Two actions with the same eight content fields derive the same pair
    under the same salt, whatever their other fields hold, and the order in
    which the dumped dictionary lists its items does not matter. *)
Theorem derive_deterministic a1 a2 salt :
  same_content a1 a2 ->
  derive a1 salt = derive a2 salt /\
  forall d1 d2,
    Permutation d1 (model_dump excluded a1) ->
    Permutation d2 (model_dump excluded a2) ->
    json_dumps true (py ",") (py ":") d1 = json_dumps true (py ",") (py ":") d2.
Proof.
  intros Hc. split.
  - by apply derive_same_content.
  - intros d1 d2 H1 H2.
    rewrite (json_dumps_of_permutation a1 d1 H1), (json_dumps_of_permutation a2 d2 H2).
    by rewrite (same_content_canonical_text _ _ Hc).
Qed.

(** C7.  The canonical encoding lists the content fields by name in
    increasing order, with [:] after a name and [,] between members and
    nothing else around them, so a record has one encoding: any arrangement
    of its dictionary, and any record with the same content, encodes to the
    same text. *)
Theorem canonical_encoding_sorted_compact a :
  json_dumps true (py ",") (py ":") (model_dump excluded a) = Ok (canonical_text a) /\
  map fst (sorted (model_dump excluded a)) =
    ["actor"; "category"; "description"; "evidence_url"; "location";
     "quantity"; "title"; "unit"]%string /\
  StronglySorted (fun k1 k2 => str_leb (py k1) (py k2) = true /\ k1 <> k2)
    (map fst (sorted (model_dump excluded a))) /\
  (forall d, Permutation d (model_dump excluded a) ->
     json_dumps true (py ",") (py ":") d = Ok (canonical_text a)) /\
  (forall a', same_content a a' ->
     json_dumps true (py ",") (py ":") (model_dump excluded a') = Ok (canonical_text a)).
Proof.
  split; [apply json_dumps_model_dump |].
  split; [reflexivity |].
  split.
  { rewrite sorted_model_dump. simpl.
    repeat (constructor; [| repeat (constructor; [split; [reflexivity | discriminate] |]); constructor]).
    constructor. }
  split; [apply json_dumps_of_permutation |].
  intros a' Hc. rewrite (same_content_canonical_text _ _ Hc). apply json_dumps_model_dump.
Qed.

(** ** Escaping and UTF-8 can be read back *)

Ltac Zify.zify_post_hook ::= Z.to_euclidean_division_equations.

Lemma unhex_hexdigit d : d < 16 -> unhex (hexdigit d) = Some d.
Proof.
  intros Hd. unfold unhex, hexdigit.
  destruct (N.ltb_spec d 10); n_cases; f_equal; lia.
Qed.

Lemma unhex4_hex4 n r : n < 65536 -> unhex4 (hex4 n ++ r) = Some (n, r).
Proof.
  intros Hn. unfold hex4, unhex4. simpl.
  rewrite !unhex_hexdigit by (apply N.mod_lt; lia).
  f_equal. f_equal. lia.
Qed.

Lemma lor_high k x : x < 1024 -> N.lor (k * 1024) x = k * 1024 + x.
Proof.
  intros Hx. rewrite <- N.lxor_lor, N.add_nocarry_lxor; try done;
    apply N.bits_inj_iff; intros i; rewrite N.land_spec, N.bits_0;
    change 1024 with (2 ^ 10); rewrite <- N.shiftl_mul_pow2;
    (destruct (N.lt_ge_cases i 10) as [Hi | Hi];
     [ by rewrite N.shiftl_spec_low
     | rewrite <- (N.mod_small x (2 ^ 10)) by (change (2 ^ 10) with 1024; lia);
       rewrite N.mod_pow2_bits_high by done; apply andb_false_r ]).
Qed.

Lemma surrogate_pair c :
  65536 <= c -> c < 1114112 ->
  N.lor 0xd800 (N.land (N.shiftr (c - 0x10000) 10) 0x3ff) = 55296 + (c - 65536) / 1024 /\
  N.lor 0xdc00 (N.land (c - 0x10000) 0x3ff) = 56320 + (c - 65536) mod 1024.
Proof.
  intros Hlo Hhi.
  change 0x3ff with (N.ones 10). rewrite !N.land_ones, N.shiftr_div_pow2.
  change (2 ^ 10) with 1024. change 0xd800 with (54 * 1024). change 0xdc00 with (55 * 1024).
  rewrite !lor_high by (apply N.mod_lt; lia).
  change 0x10000 with 65536. split; lia.
Qed.

Lemma is_scalar_range c :
  is_scalar c = true -> c < 55296 \/ (57343 < c /\ c < 1114112).
Proof. unfold is_scalar. n_cases. Qed.

Lemma unescape_char_u rest :
  unescape_char (backslash :: 117 :: rest) = unescape_u rest.
Proof. reflexivity. Qed.

Lemma unescape_escape c r :
  is_scalar c = true -> unescape_char (escape_char c ++ r) = Some (c, r).
Proof.
  intros Hc%is_scalar_range. unfold escape_char.
  repeat match goal with
    | |- context [N.eqb c ?b] => destruct (N.eqb_spec c b) as [-> | ?]; [reflexivity |]
    end.
  destruct ((32 <=? c) && (c <=? 126)) eqn:Hprint.
  { simpl. unfold backslash in *. destruct (N.eqb_spec c 92); [lia | reflexivity]. }
  destruct (N.ltb_spec c 65536) as [Hbmp | Hbmp].
  - rewrite <- !app_comm_cons, unescape_char_u.
    unfold unescape_u. rewrite unhex4_hex4 by done.
    destruct (N.leb_spec 55296 c), (N.leb_spec c 56319); simpl; try reflexivity. lia.
  - destruct Hc as [? | [_ Hmax]]; [lia |].
    cbv zeta. destruct (surrogate_pair c Hbmp Hmax) as [-> ->].
    set (q := (c - 65536) / 1024). set (m := (c - 65536) mod 1024).
    assert (q < 1024) by (subst q; lia). assert (m < 1024) by (subst m; lia).
    rewrite <- app_assoc, <- !app_comm_cons, unescape_char_u.
    unfold unescape_u at 1. rewrite unhex4_hex4 by lia.
    destruct (N.leb_spec 55296 (55296 + q)); [| lia].
    destruct (N.leb_spec (55296 + q) 56319); [| lia].
    cbv beta iota. unfold andb at 1. rewrite unhex4_hex4 by lia.
    destruct (N.leb_spec 56320 (56320 + m)); [| lia].
    destruct (N.leb_spec (56320 + m) 57343); [| lia].
    rewrite !N.eqb_refl. cbv beta iota. unfold andb.
    f_equal. f_equal. subst q m. lia.
Qed.

Lemma utf8_decode_encode c r :
  is_scalar c = true -> utf8_decode_char (utf8_char c ++ r) = Some (c, r).
Proof.
  unfold is_scalar, utf8_char, utf8_decode_char. intros Hc.
  assert (c < 1114112) as Hmax by (revert Hc; n_cases).
  clear Hc.
  destruct (N.ltb_spec c 128); simpl.
  { destruct (N.ltb_spec c 128); [done | lia]. }
  destruct (N.ltb_spec c 2048); simpl.
  { destruct (N.ltb_spec (192 + c / 64) 128); [lia |].
    destruct (N.ltb_spec (192 + c / 64) 224); [| lia].
    f_equal. f_equal. lia. }
  destruct (N.ltb_spec c 65536); simpl.
  { destruct (N.ltb_spec (224 + c / 4096) 128); [lia |].
    destruct (N.ltb_spec (224 + c / 4096) 224); [lia |].
    destruct (N.ltb_spec (224 + c / 4096) 240); [| lia].
    f_equal. f_equal. lia. }
  destruct (N.ltb_spec (240 + c / 262144) 128); [lia |].
  destruct (N.ltb_spec (240 + c / 262144) 224); [lia |].
  destruct (N.ltb_spec (240 + c / 262144) 240); [lia |].
  f_equal. f_equal. lia.
Qed.

(** A character code that can be read back gives an injective string
    code. *)
Lemma flat_map_code_inj (enc : N -> list N) (dec : list N -> option (N * list N))
    (ok : N -> bool) :
  (forall c r, ok c = true -> dec (enc c ++ r) = Some (c, r)) ->
  dec [] = None ->
  forall s1 s2, forallb ok s1 = true -> forallb ok s2 = true ->
    flat_map enc s1 = flat_map enc s2 -> s1 = s2.
Proof.
  intros Hdec Hnil. induction s1 as [|c1 s1 IH]; intros [|c2 s2]; simpl; try done.
  - intros _ [Hc _]%andb_true_iff Heq. apply (f_equal dec) in Heq.
    rewrite Hnil, Hdec in Heq; done.
  - intros [Hc _]%andb_true_iff _ Heq. apply (f_equal dec) in Heq.
    rewrite Hnil, Hdec in Heq; done.
  - intros [Hc1 Hs1]%andb_true_iff [Hc2 Hs2]%andb_true_iff Heq.
    apply (f_equal dec) in Heq. rewrite !Hdec in Heq by done.
    injection Heq as -> Heq. f_equal. by apply IH.
Qed.

Lemma escape_inj s1 s2 :
  str_ok s1 = true -> str_ok s2 = true ->
  flat_map escape_char s1 = flat_map escape_char s2 -> s1 = s2.
Proof. apply (flat_map_code_inj escape_char unescape_char); [apply unescape_escape | done]. Qed.

Lemma utf8_inj s1 s2 :
  str_ok s1 = true -> str_ok s2 = true -> utf8 s1 = utf8 s2 -> s1 = s2.
Proof. apply (flat_map_code_inj utf8_char utf8_decode_char); [apply utf8_decode_encode | done]. Qed.

Lemma encode_basestring_ascii_inj s1 s2 :
  str_ok s1 = true -> str_ok s2 = true ->
  encode_basestring_ascii s1 = encode_basestring_ascii s2 -> s1 = s2.
Proof.
  intros H1 H2. unfold encode_basestring_ascii. intros [= Heq].
  apply app_inj_tail in Heq as [Heq _]. by apply escape_inj.
Qed.

Lemma json_opt_inj o1 o2 :
  opt_ok o1 = true -> opt_ok o2 = true -> json_opt o1 = json_opt o2 -> o1 = o2.
Proof.
  destruct o1 as [s1|], o2 as [s2|]; simpl; try done.
  intros H1 H2 Heq. f_equal. by apply encode_basestring_ascii_inj.
Qed.

(** ** One content field at a time *)

Lemma valid_action_fields a :
  valid_action a = true ->
  category a ∈ categories /\ float_gt0 (quantity a) = true.
Proof.
  unfold valid_action. rewrite !andb_true_iff, bool_decide_eq_true. tauto.
Qed.

Lemma checked_fields a :
  valid_action a = true -> surrogate_free a = true ->
  str_ok (actor a) = true /\ str_ok (title a) = true /\
  opt_ok (description a) = true /\ category a ∈ categories /\
  float_gt0 (quantity a) = true /\ str_ok (unit_ a) = true /\
  opt_ok (location a) = true /\ opt_ok (evidence_url a) = true.
Proof.
  intros [? ?]%valid_action_fields. unfold surrogate_free.
  rewrite !andb_true_iff. tauto.
Qed.

Lemma categories_ok c : c ∈ categories -> str_ok c = true.
Proof.
  unfold categories. intros (s & <- & _)%list_elem_of_In%in_map_iff. apply str_ok_py.
Qed.

(** With every other content field equal, the canonical text determines
    the remaining one. *)
Lemma canonical_text_determines_field f a a' :
  floatstr_round_trips ->
  valid_action a = true -> surrogate_free a = true ->
  valid_action a' = true -> surrogate_free a' = true ->
  same_except f a a' ->
  canonical_text a = canonical_text a' -> ~ differs_at f a a'.
Proof.
  intros Hrt Va Fa Vb Fb (S1 & S2 & S3 & S4 & S5 & S6 & S7 & S8) Heq Hdiff.
  destruct (checked_fields a Va Fa) as (Ha1 & Ha2 & Ha3 & Ha4 & Ha5 & Ha6 & Ha7 & Ha8).
  destruct (checked_fields a' Vb Fb) as (Hb1 & Hb2 & Hb3 & Hb4 & Hb5 & Hb6 & Hb7 & Hb8).
  apply categories_ok in Ha4, Hb4.
  unfold canonical_text, member in Heq.
  destruct f; simpl in Hdiff; apply Hdiff; clear Hdiff;
    try rewrite (S1 ltac:(done)) in Heq; try rewrite (S2 ltac:(done)) in Heq;
    try rewrite (S3 ltac:(done)) in Heq; try rewrite (S4 ltac:(done)) in Heq;
    try rewrite (S5 ltac:(done)) in Heq; try rewrite (S6 ltac:(done)) in Heq;
    try rewrite (S7 ltac:(done)) in Heq; try rewrite (S8 ltac:(done)) in Heq;
    rewrite <- !app_assoc in Heq;
    repeat apply app_inv_head in Heq;
    apply app_inv_tail in Heq.
  - by apply encode_basestring_ascii_inj.
  - by apply encode_basestring_ascii_inj.
  - by apply json_opt_inj.
  - by apply encode_basestring_ascii_inj.
  - by apply Hrt, py_inj.
  - by apply encode_basestring_ascii_inj.
  - by apply json_opt_inj.
  - by apply json_opt_inj.
Qed.

Lemma hash_input_eq a salt :
  str_ok (default [] salt) = true ->
  hash_input a salt = Ok (utf8 (canonical_text a) ++ utf8 (default [] salt)).
Proof.
  intros Hs. unfold hash_input.
  rewrite canonical_eq, bind_Ok, or_empty_default, encode_utf8_ok, utf8_app; [done |].
  by rewrite str_ok_app, str_ok_canonical_text.
Qed.

Lemma action_proof_hash_hash_input a salt :
  action_proof_hash a salt = bs ← hash_input a salt; Ok (hexdigest bs).
Proof. unfold action_proof_hash, hash_input. by destruct (canonical a salt). Qed.

(** An absent optional field is written [null], a field holding the text
    "null" is written as a quoted string, and the bytes that are hashed
    differ. *)
Lemma absent_is_not_null_text f a a' salt :
  str_ok (default [] salt) = true ->
  optional_value f a = Some None ->
  optional_value f a' = Some (Some (py "null")) ->
  same_except f a a' ->
  json_opt None = py "null" /\
  json_opt (Some (py "null")) = quoted (py "null") /\
  exists bs bs',
    hash_input a salt = Ok bs /\ hash_input a' salt = Ok bs' /\ bs <> bs'.
Proof.
  intros Hs Hd Hd' (S1 & S2 & S3 & S4 & S5 & S6 & S7 & S8).
  split; [reflexivity |]. split; [reflexivity |].
  eexists _, _. split; [by apply hash_input_eq |]. split; [by apply hash_input_eq |].
  intros Heq%app_inv_tail%utf8_inj; try apply str_ok_canonical_text.
  unfold canonical_text, member in Heq.
  destruct f; try discriminate Hd; simpl in Hd, Hd';
    injection Hd as Hd; injection Hd' as Hd';
    try rewrite (S1 ltac:(done)) in Heq; try rewrite (S2 ltac:(done)) in Heq;
    try rewrite (S3 ltac:(done)) in Heq; try rewrite (S4 ltac:(done)) in Heq;
    try rewrite (S5 ltac:(done)) in Heq; try rewrite (S6 ltac:(done)) in Heq;
    try rewrite (S7 ltac:(done)) in Heq; try rewrite (S8 ltac:(done)) in Heq;
    rewrite Hd, Hd' in Heq;
    rewrite <- !app_assoc in Heq; repeat apply app_inv_head in Heq;
    apply app_inv_tail in Heq; discriminate Heq.
Qed.

(** C4 (amended).  The five attestation-derived fields are not in the dumped
    payload, and actions that differ only in them hash alike.  Changing one
    content field changes the bytes that are hashed, for every salt that can
    be encoded, when the two actions are validated (category of the closed
    set, quantity greater than 0) and their text holds no lone surrogate;
    the hash then differs unless SHA-256 collides on the two inputs. *)
Theorem excluded_fields_and_content_sensitivity :
  floatstr_round_trips ->
  (forall k a, In k excluded -> ~ In k (map fst (model_dump excluded a))) /\
  (forall a a' salt,
     same_content a a' -> action_proof_hash a salt = action_proof_hash a' salt) /\
  (forall f a a' salt,
     valid_action a = true -> surrogate_free a = true ->
     valid_action a' = true -> surrogate_free a' = true ->
     str_ok (default [] salt) = true ->
     same_except f a a' -> differs_at f a a' ->
     exists bs bs',
       hash_input a salt = Ok bs /\ hash_input a' salt = Ok bs' /\ bs <> bs' /\
       action_proof_hash a salt = Ok (hexdigest bs) /\
       action_proof_hash a' salt = Ok (hexdigest bs')).
Proof.
  intros Hrt. split; [| split].
  - intros k a Hk. rewrite model_dump_excluded. simpl in *.
    intuition (subst; discriminate).
  - intros a a' salt Hc. unfold action_proof_hash.
    by rewrite !canonical_eq, (same_content_canonical_text _ _ Hc).
  - intros f a a' salt Va Fa Va' Fa' Hs Hsame Hdiff.
    eexists _, _. split; [by apply hash_input_eq |]. split; [by apply hash_input_eq |].
    split.
    + intros Heq%app_inv_tail%utf8_inj; try apply str_ok_canonical_text.
      by apply (canonical_text_determines_field f a a').
    + rewrite !action_proof_hash_hash_input, !hash_input_eq by done. done.
Qed.

End Properties.

(** ** Counting digests *)

Lemma NoDup_map_seq {A} (f : nat -> A) s n :
  (forall i j, (s <= i)%nat -> (i < j)%nat -> (j < s + n)%nat -> f i <> f j) ->
  NoDup (map f (seq s n)).
Proof.
  revert s. induction n as [|n IH]; intros s Hf; simpl; [apply NoDup_nil_2 |].
  apply NoDup_cons_2.
  - intros (j & Hj & [? ?]%in_seq)%list_elem_of_In%in_map_iff.
    apply (Hf s j); [lia.. | done].
  - apply IH. intros i j ? ? ?. apply Hf; lia.
Qed.

(** No sequence takes pairwise distinct values inside a finite list. *)
Lemma no_injection_into_list {A} (f : nat -> A) (l : list A) :
  (forall n, In (f n) l) -> (forall i j, (i < j)%nat -> f i <> f j) -> False.
Proof.
  intros Hin Hinj.
  assert (NoDup (map f (seq 0 (S (length l))))) as Hnd
    by (apply NoDup_map_seq; intros; by apply Hinj).
  assert (incl (map f (seq 0 (S (length l)))) l) as Hincl
    by (intros x (n & <- & _)%in_map_iff; apply Hin).
  apply NoDup_ListNoDup in Hnd.
  pose proof (NoDup_incl_length Hnd Hincl) as Hle.
  rewrite length_map, length_seq in Hle. by apply Nat.nle_succ_diag_l in Hle.
Qed.

Lemma all_words_complete alphabet w :
  Forall (fun c => In c alphabet) w -> In w (all_words alphabet (length w)).
Proof.
  induction 1 as [|c w Hc _ IH]; [by left |].
  change (In (c :: w) (flat_map (fun w => map (fun c => c :: w) alphabet)
                         (all_words alphabet (length w)))).
  apply in_flat_map. exists w. split; [done |].
  apply in_map_iff. by exists c.
Qed.

Lemma lower_hex_listed c : is_lower_hex c = true -> In c lower_hex_digits.
Proof.
  intros Hc.
  assert (c = 48 \/ c = 49 \/ c = 50 \/ c = 51 \/ c = 52 \/ c = 53 \/ c = 54 \/
          c = 55 \/ c = 56 \/ c = 57 \/ c = 97 \/ c = 98 \/ c = 99 \/ c = 100 \/
          c = 101 \/ c = 102) as Hcases
    by (revert Hc; unfold is_lower_hex; n_cases).
  repeat (destruct Hcases as [-> | Hcases]; [simpl; tauto |]).
  subst. simpl. tauto.
Qed.

Lemma hexdigest_listed msg : In (hexdigest msg) (all_words lower_hex_digits 64).
Proof.
  rewrite <- (hexdigest_length msg). apply all_words_complete.
  apply Forall_forall. intros c Hc%list_elem_of_In. apply lower_hex_listed.
  revert c Hc. apply forallb_forall, hexdigest_lower.
Qed.

(** ** The small float model satisfies the round-trip law *)

Lemma tenths_round_trips : @floatstr_round_trips tenths_float.
Proof.
  intros x y Hx%Z.ltb_lt Hy%Z.ltb_lt Heq. simpl in *. unfold tenths_str in Heq.
  apply (f_equal list_ascii_of_string) in Heq.
  rewrite !list_ascii_of_string_of_list_ascii in Heq.
  destruct (Z.ltb_spec x 0); [lia |]. destruct (Z.ltb_spec y 0); [lia |].
  simpl in Heq.
  set (qx := Z.abs_N x / 10) in *. set (qy := Z.abs_N y / 10) in *.
  set (mx := Z.abs_N x mod 10) in *. set (my := Z.abs_N y mod 10) in *.
  change ["."%char; ascii_of_N (48 + mx)] with (["."%char] ++ [ascii_of_N (48 + mx)]) in Heq.
  change ["."%char; ascii_of_N (48 + my)] with (["."%char] ++ [ascii_of_N (48 + my)]) in Heq.
  rewrite !app_assoc in Heq.
  apply app_inj_tail in Heq as [Heq Hd]. apply app_inj_tail in Heq as [Heq _].
  assert (qx = qy) as Hq.
  { apply DecimalN.Unsigned.to_uint_inj.
    assert (Some (N.to_uint qx) = Some (N.to_uint qy)) as [= ->]; [| done].
    rewrite <- !NilEmpty.usu.
    by rewrite <- (string_of_list_ascii_of_string (NilEmpty.string_of_uint (N.to_uint qx))),
      Heq, string_of_list_ascii_of_string. }
  assert (mx < 10 /\ my < 10) as [? ?] by (subst mx my; split; apply N.mod_lt; lia).
  assert (mx = my) as Hm.
  { apply (f_equal N_of_ascii) in Hd. rewrite !N_ascii_embedding in Hd by lia. lia. }
  pose proof (N.div_mod' (Z.abs_N x) 10). pose proof (N.div_mod' (Z.abs_N y) 10).
  fold qx mx in H3. fold qy my in H4. lia.
Qed.

Ltac same_fields := repeat split; intros; try reflexivity; congruence.

Lemma str_ok_repeat_ascii c n : c < 128 -> str_ok (repeat c n) = true.
Proof.
  intros Hc. apply (str_ok_below 128); [lia |].
  apply Forall_forall. by intros x ->%list_elem_of_In%repeat_spec.
Qed.

Lemma valid_titled n : valid_action (titled n) = true.
Proof. reflexivity. Qed.

Lemma surrogate_free_titled n : surrogate_free (titled n) = true.
Proof.
  unfold surrogate_free, titled. cbn [actor title description category unit_
    location evidence_url].
  rewrite str_ok_repeat_ascii by lia. reflexivity.
Qed.

(** The hash itself cannot be sensitive, even where the hashed bytes are:
    SHA-256 has finitely many digests and there are more titles than
    digests, so two validated, surrogate-free actions that differ in the
    title alone share a [proof_hash]. *)
Lemma proof_hash_sensitivity_fails : ~ @proof_hash_sensitive tenths_float.
Proof.
  intros Hs.
  apply (no_injection_into_list
           (fun n => hexdigest (utf8 (canonical_text (titled n)) ++ utf8 []))
           (all_words lower_hex_digits 64)).
  - intros n. apply hexdigest_listed.
  - intros i j Hij Heq.
    apply (Hs f_title (titled i) (titled j) None);
      try apply valid_titled; try apply surrogate_free_titled.
    + same_fields.
    + simpl. intros Ht%(f_equal length). rewrite !repeat_length in Ht. lia.
    + rewrite !action_proof_hash_eq by done. exact (f_equal Ok Heq).
Qed.

(** C1, as worded.  A salt is any [str]; for the salt made of one lone
    surrogate, [str.encode] raises and [derive] returns no pair. *)
Lemma derive_raises_on_surrogate_salt :
  derive test_action (Some [0xD800]) = Raise UnicodeEncodeError /\
  derive test_action (Some [0xD800]) <> Ok (derive_spec test_action (Some [0xD800])).
Proof.
  assert (derive test_action (Some [0xD800]) = Raise UnicodeEncodeError) as H
    by (vm_compute; reflexivity).
  split; [exact H |]. rewrite H. discriminate.
Qed.

(** C4, as worded.  The stored documents [surrogate_title_doc] and
    [astral_title_doc] both pass validation; the actions built from them
    differ in the title alone, and [action_proof_hash] gives the same
    [proof_hash] for the two: [json.dumps] writes both titles as the
    escapes of one surrogate pair. *)
Lemma surrogate_pair_title_same_hash :
  build_action surrogate_title_doc = Ok surrogate_title_action /\
  build_action astral_title_doc = Ok astral_title_action /\
  same_except f_title surrogate_title_action astral_title_action /\
  differs_at f_title surrogate_title_action astral_title_action /\
  action_proof_hash surrogate_title_action None =
    Ok (py "191cd478f075d3f896259f1d9b7485f834cde76dad06be3b545d13a4bfae7aa4") /\
  action_proof_hash astral_title_action None =
    Ok (py "191cd478f075d3f896259f1d9b7485f834cde76dad06be3b545d13a4bfae7aa4").
Proof.
  split; [vm_compute; reflexivity |]. split; [vm_compute; reflexivity |].
  split; [same_fields |]. split; [simpl; discriminate |].
  split; vm_compute; reflexivity.
Qed.

(** Witnesses on the scenario of the tests. *)
Lemma derive_lengths_witness :
  derive test_action None = Ok (test_proof_hash, test_tx_id) /\
  length test_proof_hash = 64%nat /\ forallb is_lower_hex test_proof_hash = true /\
  length test_tx_id = 32%nat /\ forallb is_lower_hex test_tx_id = true /\
  test_tx_id = firstn 32 (hexdigest (utf8 (test_proof_hash ++ py "|tx"))).
Proof.
  split; [vm_cast_no_check (eq_refl (derive test_action None)) |].
  apply (derive_lengths test_action None).
  vm_cast_no_check (eq_refl (derive test_action None)).
Defined.

Lemma derive_deterministic_witness :
  derive test_action None = derive test_action_attested None.
Proof.
  apply (derive_deterministic test_action test_action_attested None).
  unfold same_content. same_fields.
Defined.

Lemma content_sensitivity_witness :
  exists bs bs',
    hash_input test_action None = Ok bs /\ hash_input (titled 3) None = Ok bs' /\
    bs <> bs' /\
    action_proof_hash test_action None = Ok (hexdigest bs) /\
    action_proof_hash (titled 3) None = Ok (hexdigest bs').
Proof.
  apply (proj2 (proj2 (excluded_fields_and_content_sensitivity tenths_round_trips)) f_title).
  - reflexivity.
  - reflexivity.
  - reflexivity.
  - reflexivity.
  - reflexivity.
  - same_fields.
  - simpl. discriminate.
Defined.

(** ** Attestation *)

Section Attestation.

Context {F : PyFloat}.

(** *** Validation *)

Lemma validate_str_Ok v s : validate_str v = Ok s -> v = VStr s.
Proof. destruct v; simpl; try done. by intros [= <-]. Qed.

Lemma validate_opt_str_Ok v o : validate_opt_str v = Ok o -> v = opt_str o.
Proof. destruct v; simpl; try done; by intros [= <-]. Qed.

Lemma validate_opt_str_of o : validate_opt_str (opt_str o) = Ok o.
Proof. by destruct o. Qed.

Lemma validate_literal_Ok allowed v s :
  validate_literal allowed v = Ok s -> v = VStr s /\ s ∈ allowed.
Proof.
  destruct v; simpl; try done. case_bool_decide; [| done]. by intros [= <-].
Qed.

Lemma validate_gt0_Ok x y : validate_gt0 x = Ok y -> x = y /\ float_gt0 y = true.
Proof.
  unfold validate_gt0. destruct (float_gt0 x) eqn:Hx; [| done]. by intros [= <-].
Qed.

(** What a successful construction says of its arguments. *)
Lemma new_ImpactAction_Ok va vt vd vc q vu vl ve b vph vtx a :
  new_ImpactAction va vt vd vc q vu vl ve b vph vtx = Ok a ->
  validate_str va = Ok (actor a) /\ validate_str vt = Ok (title a) /\
  validate_opt_str vd = Ok (description a) /\
  validate_literal categories vc = Ok (category a) /\
  validate_gt0 q = Ok (quantity a) /\ validate_str vu = Ok (unit_ a) /\
  validate_opt_str vl = Ok (location a) /\
  validate_opt_str ve = Ok (evidence_url a) /\
  attested a = b /\
  validate_opt_str vph = Ok (proof_hash a) /\ validate_opt_str vtx = Ok (tx_id a) /\
  created_at a = None /\ updated_at a = None.
Proof.
  unfold new_ImpactAction.
  destruct (validate_str va); [| done]. destruct (validate_str vt); [| done].
  destruct (validate_opt_str vd); [| done].
  destruct (validate_literal categories vc); [| done].
  destruct (validate_gt0 q); [| done]. destruct (validate_str vu); [| done].
  destruct (validate_opt_str vl); [| done]. destruct (validate_opt_str ve); [| done].
  destruct (validate_opt_str vph); [| done]. destruct (validate_opt_str vtx); [| done].
  simpl. intros [= <-]. simpl. repeat split.
Qed.

(** pydantic's guarantee: a model built from a document is valid. *)
Lemma build_action_valid raw a : build_action raw = Ok a -> valid_action a = true.
Proof.
  unfold build_action. destruct (py_float _) as [q|]; [| done]. rewrite bind_Ok.
  intros (_ & _ & _ & H4 & H5 & _)%new_ImpactAction_Ok.
  apply validate_literal_Ok in H4 as [_ H4]. apply validate_gt0_Ok in H5 as [_ H5].
  unfold valid_action. by rewrite H5, bool_decide_eq_true_2.
Qed.

(** *** What the handler does, case by case *)

Lemma attest_action_missing st now action_id body :
  match ObjectId action_id with
  | Some o => impactaction st !! o
  | None => None
  end = None ->
  attest_action (Some st) now action_id body =
  (Raise (HTTPException 404 "Action not found"), Some st).
Proof.
  intros Hmiss. unfold attest_action, find_one_by_id.
  destruct (ObjectId action_id) as [o|]; [| done]. by rewrite Hmiss.
Qed.

Lemma attest_action_found st now action_id body o d :
  ObjectId action_id = Some o -> impactaction st !! o = Some d ->
  attest_action (Some st) now action_id body =
  match build_action (<["_id" := VObjectId o]> d) with
  | Raise e => (Raise e, Some st)
  | Ok a =>
      match derive a (salt body) with
      | Raise e => (Raise e, Some st)
      | Ok (ph, tx) =>
          (Ok (ph, tx),
           Some {| impactaction :=
                     alter (set_fields (attested_fields now ph tx)) o (impactaction st);
                   proof := proof st ++ [proof_doc now action_id body ph tx] |})
      end
  end.
Proof.
  intros Hid Hd. unfold attest_action, find_one_by_id. rewrite Hid, Hd. simpl.
  rewrite bool_decide_eq_false_2 by apply insert_non_empty.
  destruct (build_action _) as [a|]; [| done].
  destruct (derive a (salt body)) as [[ph tx]|]; [| done].
  by rewrite lookup_insert_eq.
Qed.

(** A response comes only from a stored action. *)
Lemma attest_action_Ok_inv db now action_id body ph tx db' :
  attest_action db now action_id body = (Ok (ph, tx), db') ->
  exists st o d a,
    db = Some st /\ ObjectId action_id = Some o /\ impactaction st !! o = Some d /\
    build_action (<["_id" := VObjectId o]> d) = Ok a /\
    derive a (salt body) = Ok (ph, tx) /\
    db' = Some {| impactaction :=
                    alter (set_fields (attested_fields now ph tx)) o (impactaction st);
                  proof := proof st ++ [proof_doc now action_id body ph tx] |}.
Proof.
  destruct db as [st|]; [| done].
  destruct (ObjectId action_id) as [o|] eqn:Hid;
    [| by rewrite attest_action_missing by (by rewrite Hid)].
  destruct (impactaction st !! o) as [d|] eqn:Hd;
    [| by rewrite attest_action_missing by (by rewrite Hid)].
  rewrite (attest_action_found st now action_id body o d Hid Hd).
  destruct (build_action _) as [a|] eqn:Ha; [| done].
  destruct (derive a (salt body)) as [[ph' tx']|] eqn:Hderive; [| done].
  intros [= -> -> <-]. by exists st, o, d, a.
Qed.


(** *** The document after the update *)

Ltac not_listed :=
  let Hin := fresh in
  intros Hin; repeat (apply elem_of_cons in Hin as [Hin | Hin]; [discriminate |]);
  by apply elem_of_nil in Hin.

Lemma lookup_after_attest now ph tx o (d : gmap string value) k :
  k ∉ ["attested"; "proof_hash"; "tx_id"; "updated_at"]%string ->
  (<["_id" := VObjectId o]> (set_fields (attested_fields now ph tx) d)) !! k =
  (<["_id" := VObjectId o]> d) !! k.
Proof.
  intros Hk. destruct (decide (k = "_id"%string)) as [-> | Hid].
  - by rewrite !lookup_insert_eq.
  - rewrite !lookup_insert_ne by done. unfold set_fields, attested_fields. simpl.
    rewrite !not_elem_of_cons in Hk. destruct Hk as (? & ? & ? & ? & _).
    by rewrite !lookup_insert_ne by done.
Qed.

Lemma set_fields_attested now ph tx (d : gmap string value) :
  set_fields (attested_fields now ph tx) d !! "attested"%string = Some (VBool true) /\
  set_fields (attested_fields now ph tx) d !! "proof_hash"%string = Some (VStr ph) /\
  set_fields (attested_fields now ph tx) d !! "tx_id"%string = Some (VStr tx) /\
  forall k, k ∉ ["attested"; "proof_hash"; "tx_id"; "updated_at"]%string ->
    set_fields (attested_fields now ph tx) d !! k = d !! k.
Proof.
  unfold set_fields, attested_fields. simpl. repeat split.
  - by rewrite !lookup_insert_ne, lookup_insert_eq by done.
  - by rewrite !lookup_insert_ne, lookup_insert_eq by done.
  - by rewrite !lookup_insert_ne, lookup_insert_eq by done.
  - intros k Hk. rewrite !not_elem_of_cons in Hk. destruct Hk as (? & ? & ? & ? & _).
    by rewrite !lookup_insert_ne by done.
Qed.

(** Rebuilding the model from the updated document gives the same content,
    now attested, with the hashes just stored. *)
Lemma rebuilt_after_attest now o (d : gmap string value) a ph tx :
  build_action (<["_id" := VObjectId o]> d) = Ok a ->
  exists a',
    build_action (<["_id" := VObjectId o]> (set_fields (attested_fields now ph tx) d)) = Ok a' /\
    same_content a a' /\ attested a' = true /\
    proof_hash a' = Some ph /\ tx_id a' = Some tx.
Proof.
  intros Hbuild.
  pose proof (set_fields_attested now ph tx d) as (Hat & Hp & Ht & _).
  unfold build_action, get, get_default in *.
  rewrite (lookup_after_attest now ph tx o d "quantity"),
    (lookup_after_attest now ph tx o d "actor"),
    (lookup_after_attest now ph tx o d "title"),
    (lookup_after_attest now ph tx o d "description"),
    (lookup_after_attest now ph tx o d "category"),
    (lookup_after_attest now ph tx o d "unit"),
    (lookup_after_attest now ph tx o d "location"),
    (lookup_after_attest now ph tx o d "evidence_url") by not_listed.
  rewrite !(lookup_insert_ne _ "_id"%string) by done.
  rewrite !(lookup_insert_ne _ "_id"%string) in Hbuild by done.
  rewrite Hat, Hp, Ht. simpl.
  destruct (py_float _) as [q|]; [| done]. rewrite bind_Ok in *.
  apply new_ImpactAction_Ok in Hbuild
    as (H1 & H2 & H3 & H4 & H5 & H6 & H7 & H8 & _ & _ & _ & _).
  unfold new_ImpactAction.
  rewrite H1, bind_Ok, H2, bind_Ok, H3, bind_Ok, H4, bind_Ok, H5, bind_Ok,
    H6, bind_Ok, H7, bind_Ok, H8, bind_Ok.
  simpl. eexists. split; [reflexivity |].
  unfold same_content. simpl. repeat split.
Qed.


Lemma proof_doc_fields now action_id body ph tx :
  proof_doc now action_id body ph tx !! "action_id"%string = Some (VStr action_id) /\
  proof_doc now action_id body ph tx !! "proof_hash"%string = Some (VStr ph) /\
  proof_doc now action_id body ph tx !! "tx_id"%string = Some (VStr tx).
Proof. repeat split. Qed.

(** C2.  When [attest_action] answers [(ph, tx)], the action fetched
    afterwards is attested and stores exactly [ph] and [tx]; its other fields
    are as before, and deriving again from the fetched content with the same
    salt gives [(ph, tx)]; one Proof document with these values has been
    added. *)
Theorem attest_postcondition db now action_id body ph tx db' :
  attest_action db now action_id body = (Ok (ph, tx), db') ->
  exists st st' o d raw' a',
    db = Some st /\ db' = Some st' /\ ObjectId action_id = Some o /\
    impactaction st !! o = Some d /\
    find_one_by_id (impactaction st') o = Some raw' /\
    raw' !! "attested"%string = Some (VBool true) /\
    raw' !! "proof_hash"%string = Some (VStr ph) /\
    raw' !! "tx_id"%string = Some (VStr tx) /\
    (forall k, k ∉ ["attested"; "proof_hash"; "tx_id"; "updated_at"]%string ->
       raw' !! k = (<["_id" := VObjectId o]> d) !! k) /\
    build_action raw' = Ok a' /\ derive a' (salt body) = Ok (ph, tx) /\
    proof st' = proof st ++ [proof_doc now action_id body ph tx] /\
    proof_doc now action_id body ph tx !! "action_id"%string = Some (VStr action_id) /\
    proof_doc now action_id body ph tx !! "proof_hash"%string = Some (VStr ph) /\
    proof_doc now action_id body ph tx !! "tx_id"%string = Some (VStr tx).
Proof.
  intros (st & o & d & a & -> & Hid & Hd & Hbuild & Hderive & ->)%attest_action_Ok_inv.
  destruct (rebuilt_after_attest now o d a ph tx Hbuild)
    as (a' & Hbuild' & Hsame & _).
  destruct (set_fields_attested now ph tx d) as (Hat & Hp & Ht & _).
  eexists st, _, o, d, _, a'. split; [done |]. split; [reflexivity |].
  split; [done |]. split; [done |]. simpl.
  split; [unfold find_one_by_id; by rewrite lookup_alter_eq, Hd |].
  split; [by rewrite lookup_insert_ne |].
  split; [by rewrite lookup_insert_ne |].
  split; [by rewrite lookup_insert_ne |].
  split; [intros k Hk; by apply lookup_after_attest |].
  split; [done |].
  split; [by rewrite <- (derive_same_content a a') |].
  split; [done |]. apply proof_doc_fields.
Qed.

(** C3.  For a well-formed identifier that no stored action carries,
    [attest_action] raises the 404 and leaves both collections as they
    were. *)
Theorem attest_absent_not_found st now action_id body o :
  ObjectId action_id = Some o -> impactaction st !! o = None ->
  attest_action (Some st) now action_id body =
  (Raise (HTTPException 404 "Action not found"), Some st).
Proof. intros Hid Hmiss. apply attest_action_missing. by rewrite Hid. Qed.

(** C10.  An identifier that [ObjectId] rejects gets the same 404, with
    nothing written: the answer and the storage are those of a well-formed
    identifier that is not stored. *)
Theorem attest_malformed_id_not_found st now action_id body :
  ObjectId action_id = None ->
  attest_action (Some st) now action_id body =
    (Raise (HTTPException 404 "Action not found"), Some st) /\
  forall action_id' body' o,
    ObjectId action_id' = Some o -> impactaction st !! o = None ->
    attest_action (Some st) now action_id' body' =
    attest_action (Some st) now action_id body.
Proof.
  intros Hid. split; [apply attest_action_missing; by rewrite Hid |].
  intros action_id' body' o Hid' Hmiss.
  rewrite !attest_action_missing; [done | by rewrite Hid | by rewrite Hid'].
Qed.


End Attestation.

(** Witnesses on the storage of the scenario. *)
Lemma attest_postcondition_witness :
  exists st' raw',
    (attest_action (Some test_db) 1700000100 test_id test_body).2 = Some st' /\
    find_one_by_id (impactaction st') test_oid = Some raw' /\
    raw' !! "attested"%string = Some (VBool true) /\
    raw' !! "proof_hash"%string = Some (VStr test_proof_hash) /\
    raw' !! "tx_id"%string = Some (VStr test_tx_id) /\
    proof st' = [proof_doc 1700000100 test_id test_body test_proof_hash test_tx_id].
Proof.
  destruct (attest_postcondition (Some test_db) 1700000100 test_id test_body
              test_proof_hash test_tx_id
              (attest_action (Some test_db) 1700000100 test_id test_body).2)
    as (st & st' & o & d & raw' & a' & Hst & Hst' & Hid & _ & Hfind & Hat & Hp & Ht
        & _ & _ & _ & Hproof & _).
  { vm_cast_no_check (eq_refl (attest_action (Some test_db) 1700000100 test_id test_body)). }
  injection Hst as <-.
  assert (o = test_oid) as -> by (unfold test_oid; by rewrite Hid).
  exists st', raw'.
  split; [exact Hst' |]. split; [exact Hfind |]. split; [exact Hat |].
  split; [exact Hp |]. split; [exact Ht |]. exact Hproof.
Defined.

Lemma attest_absent_not_found_witness :
  attest_action (Some test_db) 1700000100 absent_id test_body =
  (Raise (HTTPException 404 "Action not found"), Some test_db).
Proof.
  apply (attest_absent_not_found test_db 1700000100 absent_id test_body
           (default [] (ObjectId absent_id))).
  - vm_cast_no_check (eq_refl (ObjectId absent_id)).
  - vm_cast_no_check (eq_refl (@None (gmap string (@value tenths_float)))).
Defined.

Lemma attest_malformed_id_not_found_witness :
  attest_action (Some test_db) 1700000100 malformed_id test_body =
  (Raise (HTTPException 404 "Action not found"), Some test_db).
Proof.
  apply (attest_malformed_id_not_found test_db 1700000100 malformed_id test_body).
  vm_cast_no_check (eq_refl (ObjectId malformed_id)).
Defined.



(** On the scenario's action the two hashes differ as well. *)
Example absent_description_other_hash :
  action_proof_hash (test_action_described None) None <>
  action_proof_hash (test_action_described (Some (py "null"))) None.
Proof. vm_compute. discriminate. Qed.

(** * Further properties of the code *)

Section Hashing.

Context {F : PyFloat}.

(** X1.  Hashing never fails because of the action: whatever its fields
    hold, [action_proof_hash] returns the digest of the canonical text
    followed by the salt when the salt can be encoded, and raises
    [UnicodeEncodeError] when it cannot. *)
Theorem action_proof_hash_fails_only_on_salt a salt :
  action_proof_hash a salt =
  if str_ok (or_empty salt)
  then Ok (hexdigest (utf8 (canonical_text a) ++ utf8 (or_empty salt)))
  else Raise UnicodeEncodeError.
Proof.
  destruct (str_ok (or_empty salt)) eqn:Hs.
  - rewrite or_empty_default in *. by apply action_proof_hash_eq.
  - unfold action_proof_hash. rewrite canonical_eq, bind_Ok, encode_utf8_fails; [done |].
    by rewrite str_ok_app, Hs, andb_false_r.
Qed.

(** *** The canonical text can be read back *)

Lemma escape_char_not_quote c r r' : escape_char c ++ r <> dquote :: r'.
Proof.
  unfold escape_char, dquote, backslash.
  repeat match goal with
    | |- context [N.eqb c ?b] => destruct (N.eqb_spec c b); [discriminate |]
    end.
  destruct ((32 <=? c) && (c <=? 126)); [simpl; congruence |].
  destruct (c <? 65536); discriminate.
Qed.

(** A JSON string token ends where its closing quote is. *)
Lemma escaped_body_delimited s1 s2 r1 r2 :
  str_ok s1 = true -> str_ok s2 = true ->
  flat_map escape_char s1 ++ dquote :: r1 = flat_map escape_char s2 ++ dquote :: r2 ->
  s1 = s2 /\ r1 = r2.
Proof.
  revert s2. induction s1 as [|c1 s1 IH]; intros [|c2 s2]; simpl.
  - by intros _ _ [= ->].
  - intros _ _ Heq. symmetry in Heq. rewrite <- app_assoc in Heq.
    by apply escape_char_not_quote in Heq.
  - intros _ _ Heq. rewrite <- app_assoc in Heq.
    by apply escape_char_not_quote in Heq.
  - intros [Hc1 Hs1]%andb_true_iff [Hc2 Hs2]%andb_true_iff Heq.
    rewrite <- !app_assoc in Heq. apply (f_equal unescape_char) in Heq.
    rewrite !unescape_escape in Heq by done. injection Heq as -> Heq.
    destruct (IH s2 Hs1 Hs2 Heq) as [-> ->]. done.
Qed.

Lemma json_str_delimited s1 s2 r1 r2 :
  str_ok s1 = true -> str_ok s2 = true ->
  encode_basestring_ascii s1 ++ r1 = encode_basestring_ascii s2 ++ r2 ->
  s1 = s2 /\ r1 = r2.
Proof.
  intros H1 H2. unfold encode_basestring_ascii. simpl. rewrite <- !app_assoc. simpl.
  intros [= Heq]. by apply escaped_body_delimited.
Qed.

Lemma json_opt_delimited o1 o2 r1 r2 :
  opt_ok o1 = true -> opt_ok o2 = true ->
  json_opt o1 ++ r1 = json_opt o2 ++ r2 -> o1 = o2 /\ r1 = r2.
Proof.
  destruct o1 as [s1|], o2 as [s2|]; simpl; try done.
  - intros H1 H2 Heq. by destruct (json_str_delimited _ _ _ _ H1 H2 Heq) as [-> ->].
  - by intros _ _ [= ->].
Qed.

Lemma delimited_by (c : N) l1 l2 r1 r2 :
  ~ In c l1 -> ~ In c l2 -> l1 ++ c :: r1 = l2 ++ c :: r2 -> l1 = l2 /\ r1 = r2.
Proof.
  revert l2. induction l1 as [|x l1 IH]; intros [|y l2]; simpl.
  - by intros _ _ [= ->].
  - intros _ Hy [= ->]. tauto.
  - intros Hx _ [= ->]. tauto.
  - intros Hx Hy [= -> Heq]. destruct (IH l2) as [-> ->]; tauto.
Qed.

Lemma canonical_text_delimited a a' s s' :
  floatstr_round_trips -> floatstr_comma_free ->
  valid_action a = true -> surrogate_free a = true ->
  valid_action a' = true -> surrogate_free a' = true ->
  canonical_text a ++ s = canonical_text a' ++ s' ->
  same_content a a' /\ s = s'.
Proof.
  intros Hrt Hcf Va Fa Vb Fb Heq.
  destruct (checked_fields a Va Fa) as (Ha1 & Ha2 & Ha3 & Ha4 & Ha5 & Ha6 & Ha7 & Ha8).
  destruct (checked_fields a' Vb Fb) as (Hb1 & Hb2 & Hb3 & Hb4 & Hb5 & Hb6 & Hb7 & Hb8).
  apply categories_ok in Ha4, Hb4.
  unfold canonical_text, member in Heq. rewrite <- !app_assoc in Heq.
  repeat apply app_inv_head in Heq.
  apply json_str_delimited in Heq as [Hactor Heq]; try done.
  repeat apply app_inv_head in Heq.
  apply json_str_delimited in Heq as [Hcat Heq]; try done.
  repeat apply app_inv_head in Heq.
  apply json_opt_delimited in Heq as [Hdesc Heq]; try done.
  repeat apply app_inv_head in Heq.
  apply json_opt_delimited in Heq as [Hev Heq]; try done.
  repeat apply app_inv_head in Heq.
  apply json_opt_delimited in Heq as [Hloc Heq]; try done.
  repeat apply app_inv_head in Heq.
  apply (delimited_by 44) in Heq as [Hq Heq]; try apply Hcf.
  apply py_inj, Hrt in Hq; try done.
  repeat apply app_inv_head in Heq.
  apply json_str_delimited in Heq as [Htitle Heq]; try done.
  repeat apply app_inv_head in Heq.
  apply json_str_delimited in Heq as [Hunit Heq]; try done.
  apply app_inv_head in Heq.
  unfold same_content. tauto.
Qed.

(** X2.  Where no text holds a lone surrogate, the bytes that are hashed
    determine what was hashed: two validated actions whose content text is
    surrogate-free and two salts that are surrogate-free give the same hash
    input exactly when the eight content fields agree and the salts agree,
    an absent salt counting as the empty one.  (Validation does not exclude
    lone surrogates, and with them two titles can share one escaped
    form.) *)
Theorem hash_input_determines_content_and_salt a a' salt salt' :
  floatstr_round_trips -> floatstr_comma_free ->
  valid_action a = true -> surrogate_free a = true ->
  valid_action a' = true -> surrogate_free a' = true ->
  str_ok (or_empty salt) = true -> str_ok (or_empty salt') = true ->
  hash_input a salt = hash_input a' salt' <->
  same_content a a' /\ or_empty salt = or_empty salt'.
Proof.
  intros Hrt Hcf Ha Fa Ha' Fa' Hs Hs'. rewrite !or_empty_default in *.
  rewrite !hash_input_eq by done. rewrite <- !utf8_app. split.
  - intros Heq. assert (utf8 (canonical_text a ++ default [] salt) =
                        utf8 (canonical_text a' ++ default [] salt')) as Hu by congruence.
    apply utf8_inj in Hu; [| by rewrite str_ok_app, str_ok_canonical_text..].
    by apply canonical_text_delimited.
  - intros [Hc ->]. by rewrite (same_content_canonical_text _ _ Hc).
Qed.

End Hashing.

Section Documents.

Context {F : PyFloat}.

(** *** What the built model takes from the document *)

Lemma build_action_content raw a :
  build_action raw = Ok a ->
  get raw "actor" = VStr (actor a) /\ get raw "title" = VStr (title a) /\
  get raw "description" = opt_str (description a) /\
  get raw "category" = VStr (category a) /\
  py_float (get raw "quantity") = Ok (quantity a) /\
  get raw "unit" = VStr (unit_ a) /\
  get raw "location" = opt_str (location a) /\
  get raw "evidence_url" = opt_str (evidence_url a).
Proof.
  unfold build_action. destruct (py_float _) as [q|]; [| done]. rewrite bind_Ok.
  intros (H1 & H2 & H3 & H4 & H5 & H6 & H7 & H8 & _)%new_ImpactAction_Ok.
  apply validate_str_Ok in H1 as ->, H2 as ->, H6 as ->.
  apply validate_opt_str_Ok in H3 as ->, H7 as ->, H8 as ->.
  apply validate_literal_Ok in H4 as [-> _]. apply validate_gt0_Ok in H5 as [-> _].
  done.
Qed.

Lemma opt_str_inj o1 o2 : opt_str o1 = opt_str o2 -> o1 = o2.
Proof. destruct o1, o2; simpl; congruence. Qed.

(** X3.  Only what [raw.get] returns for the eight content keys reaches the
    hash: two documents that agree there (a missing key counting as [None])
    and that both validate derive the same pair, whatever else they
    store. *)
Theorem derive_reads_content_keys_only raw raw' a a' salt :
  (forall k, k ∈ ["actor"; "title"; "description"; "category"; "quantity"; "unit";
                  "location"; "evidence_url"]%string -> get raw k = get raw' k) ->
  build_action raw = Ok a -> build_action raw' = Ok a' ->
  same_content a a' /\ derive a salt = derive a' salt.
Proof.
  intros Hget (H1 & H2 & H3 & H4 & H5 & H6 & H7 & H8)%build_action_content
    (G1 & G2 & G3 & G4 & G5 & G6 & G7 & G8)%build_action_content.
  assert (same_content a a') as Hsame.
  { rewrite Hget in H1, H2, H3, H4, H5, H6, H7, H8 by (rewrite !elem_of_cons; tauto).
    unfold same_content. repeat split;
      try (apply opt_str_inj); congruence. }
  split; [done | by apply derive_same_content].
Qed.

(** *** Documents that do not validate *)

Lemma validate_str_Raise v e : validate_str v = Raise e -> e = ValidationError.
Proof. destruct v; simpl; congruence. Qed.

Lemma validate_opt_str_Raise v e : validate_opt_str v = Raise e -> e = ValidationError.
Proof. destruct v; simpl; congruence. Qed.

Lemma validate_literal_Raise allowed v e :
  validate_literal allowed v = Raise e -> e = ValidationError.
Proof. destruct v; simpl; try congruence. case_bool_decide; congruence. Qed.

Lemma validate_gt0_Raise x e : validate_gt0 x = Raise e -> e = ValidationError.
Proof. unfold validate_gt0. destruct (float_gt0 x); congruence. Qed.

(** The constructor raises nothing but [ValidationError]. *)
Lemma new_ImpactAction_Raise va vt vd vc q vu vl ve b vph vtx e :
  new_ImpactAction va vt vd vc q vu vl ve b vph vtx = Raise e -> e = ValidationError.
Proof.
  unfold new_ImpactAction.
  destruct (validate_str va) eqn:E1; [| intros [= <-]; by eapply validate_str_Raise].
  destruct (validate_str vt) eqn:E2; [| intros [= <-]; by eapply validate_str_Raise].
  destruct (validate_opt_str vd) eqn:E3; [| intros [= <-]; by eapply validate_opt_str_Raise].
  destruct (validate_literal categories vc) eqn:E4;
    [| intros [= <-]; by eapply validate_literal_Raise].
  destruct (validate_gt0 q) eqn:E5; [| intros [= <-]; by eapply validate_gt0_Raise].
  destruct (validate_str vu) eqn:E6; [| intros [= <-]; by eapply validate_str_Raise].
  destruct (validate_opt_str vl) eqn:E7; [| intros [= <-]; by eapply validate_opt_str_Raise].
  destruct (validate_opt_str ve) eqn:E8; [| intros [= <-]; by eapply validate_opt_str_Raise].
  destruct (validate_opt_str vph) eqn:E9; [| intros [= <-]; by eapply validate_opt_str_Raise].
  destruct (validate_opt_str vtx) eqn:E10; [| intros [= <-]; by eapply validate_opt_str_Raise].
  done.
Qed.

Lemma new_ImpactAction_not_positive va vt vd vc q vu vl ve b vph vtx :
  float_gt0 q = false ->
  new_ImpactAction va vt vd vc q vu vl ve b vph vtx = Raise ValidationError.
Proof.
  intros Hq.
  destruct (new_ImpactAction va vt vd vc q vu vl ve b vph vtx) as [a|e] eqn:Hnew.
  - apply new_ImpactAction_Ok in Hnew as (_ & _ & _ & _ & H5 & _).
    apply validate_gt0_Ok in H5 as [<- H5]. congruence.
  - f_equal. by eapply new_ImpactAction_Raise.
Qed.

Lemma get_with_id o (d : gmap string value) k :
  k <> "_id"%string -> get (<["_id" := VObjectId o]> d) k = get d k.
Proof. intros Hk. unfold get. by rewrite lookup_insert_ne. Qed.

(** X4.  A stored action whose [quantity] is missing or [None] cannot be
    attested: [float(None)] raises [TypeError] before anything is written. *)
Theorem attest_without_quantity st now action_id body o d :
  ObjectId action_id = Some o -> impactaction st !! o = Some d ->
  get d "quantity" = VNone ->
  attest_action (Some st) now action_id body = (Raise TypeError, Some st).
Proof.
  intros Hid Hd Hq. rewrite (attest_action_found st now action_id body o d Hid Hd).
  unfold build_action. rewrite (get_with_id o d "quantity") by done. by rewrite Hq.
Qed.

(** X5.  A stored action whose [quantity] is a float that is not positive
    cannot be attested: the model is rejected with [ValidationError] and
    nothing is written. *)
Theorem attest_nonpositive_quantity st now action_id body o d x :
  ObjectId action_id = Some o -> impactaction st !! o = Some d ->
  get d "quantity" = VFloat x -> float_gt0 x = false ->
  attest_action (Some st) now action_id body = (Raise ValidationError, Some st).
Proof.
  intros Hid Hd Hq Hx. rewrite (attest_action_found st now action_id body o d Hid Hd).
  unfold build_action. rewrite (get_with_id o d "quantity") by done. rewrite Hq. simpl.
  by rewrite new_ImpactAction_not_positive.
Qed.

(** X6.  [attest_action] answers only when the database is configured and
    the identifier names a stored document whose category is text of the
    closed set and whose quantity converts, by [float], to a value greater
    than 0. *)
Theorem attest_answers_only_for_valid_documents db now action_id body resp db' :
  attest_action db now action_id body = (Ok resp, db') ->
  exists st o d c q,
    db = Some st /\ ObjectId action_id = Some o /\ impactaction st !! o = Some d /\
    get d "category" = VStr c /\ c ∈ categories /\
    py_float (get d "quantity") = Ok q /\ float_gt0 q = true.
Proof.
  destruct resp as [ph tx].
  intros (st & o & d & a & -> & Hid & Hd & Hbuild & _ & _)%attest_action_Ok_inv.
  pose proof (build_action_valid _ _ Hbuild) as Hvalid.
  pose proof (valid_action_fields _ Hvalid) as (Hcat & Hpos).
  apply build_action_content in Hbuild as (_ & _ & _ & H4 & H5 & _).
  rewrite get_with_id in H4, H5 by done.
  exists st, o, d, (category a), (quantity a). repeat split; done.
Qed.

(** X7.  A successful attestation touches one document: no action is added
    or removed, every other action is as before, and on the attested one
    only [attested], [proof_hash], [tx_id] and [updated_at] change, the last
    to the time of the call. *)
Theorem attest_changes_one_document st now action_id body resp st' :
  attest_action (Some st) now action_id body = (Ok resp, Some st') ->
  exists o d d',
    ObjectId action_id = Some o /\
    impactaction st !! o = Some d /\ impactaction st' !! o = Some d' /\
    dom (impactaction st') = dom (impactaction st) /\
    (forall o', o' <> o -> impactaction st' !! o' = impactaction st !! o') /\
    d' !! "updated_at"%string = Some (VDatetime now) /\
    (forall k, k ∉ ["attested"; "proof_hash"; "tx_id"; "updated_at"]%string ->
       d' !! k = d !! k).
Proof.
  destruct resp as [ph tx].
  intros (st0 & o & d & a & [= <-] & Hid & Hd & _ & _ & [= ->])%attest_action_Ok_inv.
  destruct (set_fields_attested now ph tx d) as (_ & _ & _ & Hother).
  exists o, d, (set_fields (attested_fields now ph tx) d). simpl.
  split; [done |]. split; [done |].
  split; [by rewrite lookup_alter_eq, Hd |].
  split; [apply dom_alter_L |].
  split; [intros o' Ho'; by rewrite lookup_alter_ne |].
  split; [| done]. unfold set_fields, attested_fields. simpl. by rewrite lookup_insert_eq.
Qed.


(** X9.  The action is found by the parsed identifier, the Proof document
    records the identifier as it was written: two spellings of one
    [ObjectId] give the same answer and the same update of the action, and
    Proof documents that differ in [action_id]. *)
Theorem attest_two_spellings st now s s' body o :
  ObjectId s = Some o -> ObjectId s' = Some o ->
  (attest_action (Some st) now s body).1 = (attest_action (Some st) now s' body).1 /\
  forall ph tx st1,
    attest_action (Some st) now s body = (Ok (ph, tx), Some st1) ->
    exists st1',
      attest_action (Some st) now s' body = (Ok (ph, tx), Some st1') /\
      impactaction st1' = impactaction st1 /\
      proof st1 = proof st ++ [proof_doc now s body ph tx] /\
      proof st1' = proof st ++ [proof_doc now s' body ph tx] /\
      proof_doc now s body ph tx !! "action_id"%string = Some (VStr s) /\
      proof_doc now s' body ph tx !! "action_id"%string = Some (VStr s').
Proof.
  intros Hs Hs'. split.
  - destruct (impactaction st !! o) as [d|] eqn:Hd.
    + rewrite (attest_action_found st now s body o d Hs Hd),
        (attest_action_found st now s' body o d Hs' Hd).
      destruct (build_action _); [| done].
      by destruct (derive _ _) as [[ph tx]|].
    + by rewrite !attest_action_missing by (by rewrite ?Hs, ?Hs').
  - intros ph tx st1
      (st0 & o0 & d & a & [= <-] & Hid & Hd & Hbuild & Hderive & [= ->])%attest_action_Ok_inv.
    assert (o0 = o) as -> by congruence.
    eexists. rewrite (attest_action_found st now s' body o d Hs' Hd), Hbuild, Hderive.
    split; [reflexivity |]. simpl. repeat split.
Qed.

End Documents.

(** ** Identifiers as text *)




Section Listing.

Context {F : PyFloat}.
Variable float_text : pyfloat -> pystr.
Variable datetime_text : N -> pystr.

Lemma for_each_Ok body (docs docs' : list (gmap string value)) :
  for_each body docs = Ok docs' <-> Forall2 (fun d d' => body d = Ok d') docs docs'.
Proof.
  revert docs'. induction docs as [|d docs IH]; intros docs'; simpl.
  - split; [intros [= <-]; constructor | by intros ->%Forall2_nil_inv_l].
  - destruct (body d) as [d1|e] eqn:Hd; simpl.
    + destruct (for_each body docs) as [rest|e] eqn:Hrest; simpl.
      * split.
        -- intros [= <-]. constructor; [done | by apply IH].
        -- intros (d2 & rest2 & Hd2 & Hrest2 & ->)%Forall2_cons_inv_l.
           apply IH in Hrest2. congruence.
      * split; [done |].
        intros (d2 & rest2 & _ & Hrest2 & ->)%Forall2_cons_inv_l.
        apply IH in Hrest2. congruence.
    + split; [done |].
      intros (d2 & rest2 & Hd2 & _ & ->)%Forall2_cons_inv_l. congruence.
Qed.

Lemma surface_id_Ok (d d' : gmap string value) :
  surface_id float_text datetime_text d = Ok d' ->
  exists v,
    d !! "_id"%string = Some v /\
    d' !! "id"%string = Some (VStr (py_str float_text datetime_text v)) /\
    d' !! "_id"%string = None /\
    forall k, k <> "id"%string -> k <> "_id"%string -> d' !! k = d !! k.
Proof.
  unfold surface_id. destruct (d !! "_id"%string) as [v|] eqn:Hv; [| done].
  intros [= <-]. exists v. split; [done |].
  split; [by rewrite lookup_insert_eq |].
  split; [by rewrite lookup_insert_ne, lookup_delete_eq |].
  intros k Hk1 Hk2. by rewrite lookup_insert_ne, lookup_delete_ne.
Qed.

(** X10.  [list_actions] keeps the number and order of the documents; in
    each one [_id] is gone, [id] holds the text of what [_id] held (for an
    [ObjectId], its hexadecimal digits), and every other key is as it
    was. *)
Theorem list_actions_surfaces_ids docs docs' :
  list_actions float_text datetime_text docs = Ok docs' ->
  length docs' = length docs /\
  forall i d d',
    docs !! i = Some d -> docs' !! i = Some d' ->
    exists v,
      d !! "_id"%string = Some v /\
      d' !! "id"%string = Some (VStr (py_str float_text datetime_text v)) /\
      d' !! "_id"%string = None /\
      forall k, k <> "id"%string -> k <> "_id"%string -> d' !! k = d !! k.
Proof.
  intros Hall%for_each_Ok. split; [symmetry; by eapply Forall2_length |].
  intros i d d' Hd Hd'. apply surface_id_Ok.
  exact (Forall2_lookup_lr _ _ _ _ _ _ Hall Hd Hd').
Qed.

(** X11.  A document without [_id] makes the whole listing fail with
    [KeyError], wherever it stands in the list; otherwise the listing
    answers. *)
Theorem list_actions_needs_ids docs :
  (Exists (fun d => d !! "_id"%string = None) docs ->
   list_actions float_text datetime_text docs = Raise KeyError) /\
  (Forall (fun d => is_Some (d !! "_id"%string)) docs ->
   exists docs', list_actions float_text datetime_text docs = Ok docs').
Proof.
  unfold list_actions. split.
  - induction docs as [|d docs IH]; [by intros ?%Exists_nil |].
    intros [Hd | Hrest]%Exists_cons; simpl.
    + unfold surface_id. by rewrite Hd.
    + destruct (surface_id float_text datetime_text d) as [d1|e] eqn:Hd1; simpl.
      * by rewrite (IH Hrest).
      * revert Hd1. unfold surface_id.
        destruct (d !! "_id"%string); [done | by intros [= <-]].
  - induction 1 as [|d docs [v Hv] _ [rest IH]]; cbn [for_each]; [by eexists |].
    assert (surface_id float_text datetime_text d =
            Ok (<["id"%string := VStr (py_str float_text datetime_text v)]>
                  (delete "_id"%string d))) as Hd
      by (unfold surface_id; by rewrite Hv).
    eexists. by rewrite Hd, bind_Ok, IH, bind_Ok.
Qed.


(** *** list_proofs *)

Lemma normalize_key_lookup k (d : gmap string value) k' :
  normalize_key k d !! k' =
  if decide (k = k') then Some (default VNone (d !! k)) else d !! k'.
Proof.
  unfold normalize_key. destruct (d !! k) as [v|] eqn:Hk.
  - case_decide; [by subst | done].
  - case_decide; [subst; by rewrite lookup_insert_eq | by rewrite lookup_insert_ne].
Qed.

Lemma normalize_key_get k (d : gmap string value) k' :
  get (normalize_key k d) k' = get d k'.
Proof.
  unfold get. rewrite normalize_key_lookup. case_decide; [by subst; destruct (d !! k') | done].
Qed.

Lemma list_proofs_item (d d' : gmap string value) :
  (d1 ← surface_id float_text datetime_text d;
   Ok (normalize_key "chain_id"
         (normalize_key "signature" (normalize_key "signer_address" d1)))) = Ok d' ->
  exists v,
    d !! "_id"%string = Some v /\
    d' !! "id"%string = Some (VStr (py_str float_text datetime_text v)) /\
    d' !! "_id"%string = None /\
    is_Some (d' !! "signer_address"%string) /\ is_Some (d' !! "signature"%string) /\
    is_Some (d' !! "chain_id"%string) /\
    (forall k x, k <> "id"%string -> k <> "_id"%string ->
       d !! k = Some x -> d' !! k = Some x) /\
    (forall k, k <> "id"%string -> k <> "_id"%string -> get d' k = get d k).
Proof.
  destruct (surface_id float_text datetime_text d) as [d1|] eqn:Hd1; [| done].
  rewrite bind_Ok. intros [= <-].
  apply surface_id_Ok in Hd1 as (v & Hv & Hid & Hno & Hother).
  exists v. split; [done |].
  split; [by rewrite !normalize_key_lookup; repeat case_decide |].
  split; [by rewrite !normalize_key_lookup; repeat case_decide |].
  split; [rewrite !normalize_key_lookup; repeat case_decide; try done;
          by destruct (d1 !! "signer_address"%string) |].
  split; [rewrite !normalize_key_lookup; repeat case_decide; try done;
          by destruct (d1 !! "signature"%string) |].
  split; [rewrite !normalize_key_lookup; repeat case_decide; try done;
          by destruct (d1 !! "chain_id"%string) |].
  split.
  - intros k x Hk1 Hk2 Hx. rewrite <- (Hother k Hk1 Hk2) in Hx.
    rewrite !normalize_key_lookup. repeat case_decide; subst; by rewrite ?Hx.
  - intros k Hk1 Hk2. rewrite !normalize_key_get. unfold get. by rewrite Hother.
Qed.

(** X13.  After [list_proofs] every document has the keys [signer_address],
    [signature] and [chain_id]; a value that was stored is kept, a missing
    one reads [None], so [.get] on any other key than [id] and [_id] returns
    what it returned before. *)
Theorem list_proofs_normalizes docs docs' :
  list_proofs float_text datetime_text docs = Ok docs' ->
  length docs' = length docs /\
  forall i d d',
    docs !! i = Some d -> docs' !! i = Some d' ->
    exists v,
      d !! "_id"%string = Some v /\
      d' !! "id"%string = Some (VStr (py_str float_text datetime_text v)) /\
      d' !! "_id"%string = None /\
      is_Some (d' !! "signer_address"%string) /\ is_Some (d' !! "signature"%string) /\
      is_Some (d' !! "chain_id"%string) /\
      (forall k x, k <> "id"%string -> k <> "_id"%string ->
         d !! k = Some x -> d' !! k = Some x) /\
      (forall k, k <> "id"%string -> k <> "_id"%string -> get d' k = get d k).
Proof.
  intros Hall%for_each_Ok. split; [symmetry; by eapply Forall2_length |].
  intros i d d' Hd Hd'. apply list_proofs_item.
  exact (Forall2_lookup_lr _ _ _ _ _ _ Hall Hd Hd').
Qed.

(** X14.  The Proof document that an attestation adds, listed under any
    [_id] the driver gave it, shows the identifier and the pair of the
    response, the network marker and the signer fields of the request, as
    the end-to-end test reads them. *)
Theorem attested_proof_is_listed db now action_id body ph tx db' o :
  attest_action db now action_id body = (Ok (ph, tx), db') ->
  exists st' p d',
    db' = Some st' /\ last (proof st') = Some p /\
    list_proofs float_text datetime_text [<["_id"%string := VObjectId o]> p] = Ok [d'] /\
    d' !! "id"%string = Some (VStr (hex_of_bytes o)) /\
    d' !! "action_id"%string = Some (VStr action_id) /\
    d' !! "proof_hash"%string = Some (VStr ph) /\
    d' !! "tx_id"%string = Some (VStr tx) /\
    d' !! "network"%string = Some (VStr (py "sim-chain")) /\
    d' !! "signer_address"%string = Some (opt_str (signer_address body)) /\
    d' !! "signature"%string = Some (opt_str (signature body)) /\
    d' !! "chain_id"%string = Some (opt_int (chain_id body)).
Proof.
  intros (st & o0 & d & a & -> & _ & _ & _ & _ & ->)%attest_action_Ok_inv.
  set (p := proof_doc now action_id body ph tx).
  destruct (list_proofs_item (<["_id"%string := VObjectId o]> p)
              (normalize_key "chain_id" (normalize_key "signature"
                 (normalize_key "signer_address"
                    (<["id"%string := VStr (hex_of_bytes o)]>
                       (delete "_id"%string (<["_id"%string := VObjectId o]> p)))))))
    as (v & Hv & Hid & _ & _ & _ & _ & Hkeep & _).
  { unfold surface_id. by rewrite lookup_insert_eq. }
  rewrite lookup_insert_eq in Hv. injection Hv as <-.
  eexists _, p, _. split; [reflexivity |]. cbn [proof insert_one].
  split; [apply last_snoc |].
  split; [unfold list_proofs, surface_id; cbn [for_each];
          by rewrite lookup_insert_eq, !bind_Ok |].
  split; [exact Hid |].
  repeat split; apply Hkeep; try done; by rewrite lookup_insert_ne.
Qed.

End Listing.

(** ** The database probe *)

(** X15.  Whatever the database does, [test_database] reports at most ten
    collection names, the first ones; it reports [Connected] exactly when
    [list_collection_names] returned; the text of a failure is cut to 100
    characters after its nine-character prefix; and without a database the
    two environment flags read "not set" even when the variables are set. *)
Theorem probe_report db url name :
  let r := Probe.test_database db url name in
  (length (Probe.collections r) <= 10)%nat /\
  (forall names, db = Probe.DbNames names ->
     exists rest, names = Probe.collections r ++ rest) /\
  (Probe.connection_status r = py "Connected" <-> exists names, db = Probe.DbNames names) /\
  (forall message, db = Probe.DbRaises message ->
     (length (Probe.database r) <= 109)%nat /\
     Probe.database r = Probe.cross_mark :: py " Error: " ++ firstn 100 message /\
     Probe.database_url r = Probe.set_flag url /\
     Probe.database_name r = Probe.set_flag name) /\
  (db = Probe.DbNone ->
     Probe.database_url r = Probe.set_flag None /\
     Probe.database_name r = Probe.set_flag None).
Proof.
  destruct db as [|names|message]; simpl.
  - split; [lia |]. split; [done |]. split; [| done].
    split; [done | by intros [? ?]].
  - split; [rewrite length_take; lia |].
    split; [intros ? [= <-]; exists (skipn 10 names); by rewrite take_drop |].
    split; [| done]. split; [by eexists | done].
  - split; [lia |]. split; [done |].
    split; [split; [done | by intros [? ?]] |].
    split; [| done]. intros ? [= <-]. rewrite length_take. repeat split. lia.
Qed.

(** ** The small float model: its text has no comma *)

Lemma uint_text_digits u a :
  In a (list_ascii_of_string (NilEmpty.string_of_uint u)) -> a <> ","%char.
Proof.
  induction u; simpl; try done; intros [<- | Hin]; try discriminate; by apply IHu.
Qed.

Lemma tenths_comma_free : @floatstr_comma_free tenths_float.
Proof.
  intros x. simpl. unfold tenths_str, py.
  rewrite list_ascii_of_string_of_list_ascii.
  intros (a & Ha & Hin)%in_map_iff.
  assert (a = ","%char) as ->
    by (rewrite <- (ascii_N_embedding a), Ha; reflexivity).
  apply in_app_iff in Hin as [Hin | Hin].
  { destruct (x <? 0)%Z; simpl in Hin; [| done]. by destruct Hin. }
  apply in_app_iff in Hin as [Hin | Hin].
  { by apply uint_text_digits in Hin. }
  destruct Hin as [Hin | [Hin | []]]; [discriminate |].
  apply (f_equal N_of_ascii) in Hin.
  assert (Z.abs_N x mod 10 < 10) by (apply N.mod_lt; lia).
  set (m := Z.abs_N x mod 10) in *.
  rewrite N_ascii_embedding in Hin by lia.
  change (N_of_ascii ","%char) with 44 in Hin. lia.
Qed.

(** ** Witnesses for the further properties *)

Lemma hash_input_determines_content_and_salt_witness :
  hash_input test_action None = hash_input test_action_attested (Some []).
Proof.
  apply (hash_input_determines_content_and_salt test_action test_action_attested
           None (Some []) tenths_round_trips tenths_comma_free);
    try reflexivity.
  split; [unfold same_content; same_fields | reflexivity].
Defined.

Lemma derive_reads_content_keys_only_witness :
  same_content test_action_sparse test_action_sparse /\
  derive test_action_sparse (Some (py "s")) = derive test_action_sparse (Some (py "s")).
Proof.
  apply (derive_reads_content_keys_only test_doc_sparse test_doc_nulls).
  - intros k Hk.
    repeat (apply elem_of_cons in Hk as [-> | Hk]; [reflexivity |]).
    by apply elem_of_nil in Hk.
  - vm_cast_no_check (eq_refl (Ok test_action_sparse)).
  - vm_cast_no_check (eq_refl (Ok test_action_sparse)).
Defined.

Lemma attest_without_quantity_witness :
  attest_action (Some test_db_no_quantity) 1700000100 test_id test_body =
  (Raise TypeError, Some test_db_no_quantity).
Proof.
  apply (attest_without_quantity test_db_no_quantity 1700000100 test_id test_body
           test_oid (delete "quantity"%string test_doc)).
  - vm_cast_no_check (eq_refl (ObjectId test_id)).
  - apply lookup_singleton_eq.
  - vm_cast_no_check (eq_refl (@VNone tenths_float)).
Defined.

Lemma attest_nonpositive_quantity_witness :
  attest_action (Some test_db_negative_quantity) 1700000100 test_id test_body =
  (Raise ValidationError, Some test_db_negative_quantity).
Proof.
  apply (attest_nonpositive_quantity test_db_negative_quantity 1700000100 test_id test_body
           test_oid (<["quantity"%string := @VFloat tenths_float (-5)%Z]> test_doc)
           (-5)%Z).
  - vm_cast_no_check (eq_refl (ObjectId test_id)).
  - apply lookup_singleton_eq.
  - vm_cast_no_check (eq_refl (@VFloat tenths_float (-5)%Z)).
  - reflexivity.
Defined.

Lemma attest_answers_only_for_valid_documents_witness :
  exists (c : pystr) (q : @pyfloat tenths_float),
    get test_doc "category" = VStr c /\ c ∈ categories /\
    py_float (get test_doc "quantity") = Ok q /\ float_gt0 q = true.
Proof.
  destruct (attest_answers_only_for_valid_documents (Some test_db) 1700000100 test_id
              test_body (test_proof_hash, test_tx_id)
              (attest_action (Some test_db) 1700000100 test_id test_body).2)
    as (st & o & d & c & q & Hst & Hid & Hd & Hc & Hcat & Hq & Hpos).
  { vm_cast_no_check (eq_refl (attest_action (Some test_db) 1700000100 test_id test_body)). }
  injection Hst as <-.
  assert (o = test_oid) as -> by (unfold test_oid; by rewrite Hid).
  assert (d = test_doc) as ->.
  { assert (impactaction test_db !! test_oid = Some test_doc) as Hl
      by (vm_cast_no_check (eq_refl (Some test_doc))).
    congruence. }
  exists c, q. split; [exact Hc |]. split; [exact Hcat |]. split; [exact Hq | exact Hpos].
Defined.

Lemma attest_changes_one_document_witness :
  exists o d d',
    ObjectId test_id = Some o /\
    impactaction test_db_two !! o = Some d /\
    impactaction
      (default test_db_two
         (attest_action (Some test_db_two) 1700000100 test_id test_body).2) !! o = Some d' /\
    d' !! "updated_at"%string = Some (VDatetime 1700000100).
Proof.
  destruct (attest_changes_one_document test_db_two 1700000100 test_id test_body
              (test_proof_hash, test_tx_id)
              (default test_db_two
                 (attest_action (Some test_db_two) 1700000100 test_id test_body).2))
    as (o & d & d' & Hid & Hd & Hd' & _ & _ & Hnow & _).
  { vm_cast_no_check
      (eq_refl (attest_action (Some test_db_two) 1700000100 test_id test_body)). }
  exists o, d, d'. split; [exact Hid |]. split; [exact Hd |]. split; [exact Hd' | exact Hnow].
Defined.


Lemma attest_two_spellings_witness :
  (attest_action (Some test_db) 1700000100 test_id test_body).1 =
  (attest_action (Some test_db) 1700000100 test_id_upper test_body).1.
Proof.
  apply (attest_two_spellings test_db 1700000100 test_id test_id_upper test_body test_oid).
  - vm_cast_no_check (eq_refl (ObjectId test_id)).
  - vm_cast_no_check (eq_refl (ObjectId test_id)).
Defined.

Lemma list_actions_surfaces_ids_witness :
  length [<["id"%string := VStr test_id]> test_doc] = length [test_doc_listed].
Proof.
  apply (list_actions_surfaces_ids tenths_text seconds_text [test_doc_listed]
           [<["id"%string := VStr test_id]> test_doc]).
  vm_cast_no_check (eq_refl (list_actions tenths_text seconds_text [test_doc_listed])).
Defined.


Lemma list_proofs_normalizes_witness :
  exists d',
    legacy_listed !! 0%nat = Some d' /\
    is_Some (d' !! "signer_address"%string) /\ is_Some (d' !! "chain_id"%string).
Proof.
  assert (legacy_listed !! 0%nat = Some (default ∅ (legacy_listed !! 0%nat))) as Hd'
    by vm_cast_no_check (eq_refl (legacy_listed !! 0%nat)).
  exists (default ∅ (legacy_listed !! 0%nat)). split; [exact Hd' |].
  destruct (proj2 (list_proofs_normalizes tenths_text seconds_text [legacy_proof]
                     legacy_listed
                     ltac:(vm_cast_no_check
                             (eq_refl (list_proofs tenths_text seconds_text [legacy_proof]))))
              0%nat legacy_proof _ eq_refl Hd')
    as (v & _ & _ & _ & Hsigner & _ & Hchain & _).
  split; [exact Hsigner | exact Hchain].
Defined.

Lemma attested_proof_is_listed_witness :
  exists d' : gmap string (@value tenths_float),
    d' !! "proof_hash"%string = Some (VStr test_proof_hash) /\
    d' !! "chain_id"%string = Some (VInt 1337).
Proof.
  destruct (attested_proof_is_listed tenths_text seconds_text (Some test_db) 1700000100
              test_id test_body test_proof_hash test_tx_id
              (attest_action (Some test_db) 1700000100 test_id test_body).2 other_oid)
    as (st' & p & d' & _ & _ & _ & _ & _ & Hp & _ & _ & _ & _ & Hc).
  { vm_cast_no_check (eq_refl (attest_action (Some test_db) 1700000100 test_id test_body)). }
  exists d'. split; [exact Hp | exact Hc].
Defined.
